(** * LocalStack: CloudFormation template preparation and the Step Functions
    [SecondsPath] wait function

    A shallow embedding of

    - [localstack/services/cloudformation/engine/template_preparer.py]
      ([format_transforms], [do_transformations], [transform_template],
      [apply_serverless_transformation] and the computing parts of
      [execute_macro]);
    - [localstack/services/stepfunctions/asl/component/state/state_wait/
      wait_function/seconds_path.py] ([SecondsPath._eval_body]).

    Python values are modelled by an inductive type of JSON-like data,
    Python exceptions by an explicit error type, and effectful code by a
    state-and-error monad over the external world. *)

From Stdlib Require Import String Ascii List ZArith Bool Lia.
Import ListNotations.
Local Open Scope string_scope.
Local Open Scope list_scope.

(** ** Python values *)

Module Py.

(** The values a parsed JSON or YAML document is made of. A [dict] keeps its
    insertion order; its keys are strings. Floats do not occur in what
    follows and are left out. *)
#[local] Unset Elimination Schemes.
Inductive pyvalue : Type :=
| VNone
| VBool (b : bool)
| VInt (z : Z)
| VStr (s : string)
| VList (items : list pyvalue)
| VDict (entries : list (string * pyvalue)).
#[local] Set Elimination Schemes.

Definition dict : Type := list (string * pyvalue).

(** [isinstance(v, str)], [isinstance(v, Dict)], [isinstance(v, list)]. *)
Definition isinstance_str (v : pyvalue) : bool :=
  match v with VStr _ => true | _ => false end.

Definition isinstance_dict (v : pyvalue) : bool :=
  match v with VDict _ => true | _ => false end.

Definition isinstance_list (v : pyvalue) : bool :=
  match v with VList _ => true | _ => false end.

(** [d.get(key)]: the value stored under [key], if any. *)
Fixpoint dict_get (key : string) (d : dict) : option pyvalue :=
  match d with
  | [] => None
  | (k, v) :: rest => if String.eqb key k then Some v else dict_get key rest
  end.

(** [d.get(key, default)]. *)
Definition dict_get_default (key : string) (default : pyvalue) (d : dict) : pyvalue :=
  match dict_get key d with
  | Some v => v
  | None => default
  end.

(** [s in l] for a string [s] and a list [l]: some element equals [s]; only a
    [str] compares equal to a [str]. *)
Definition str_in (s : string) (l : list pyvalue) : bool :=
  existsb (fun v => match v with VStr t => String.eqb s t | _ => false end) l.

(** [v == s] for a string [s]. *)
Definition eq_str (v : pyvalue) (s : string) : bool :=
  match v with VStr t => String.eqb t s | _ => false end.

End Py.
Import Py.

(** ** [template_preparer.py] *)

Module template_preparer.

Definition SERVERLESS_TRANSFORM : string := "AWS::Serverless-2016-10-31".
Definition EXTENSIONS_TRANSFORM : string := "AWS::LanguageExtensions".

(** The exceptions the module raises or lets through. *)
Inductive exn : Type :=
| InsufficientCapabilitiesException (message : string)
| CommonServiceException (code : string) (status_code : Z) (message : string)
    (sender_fault : bool)
| FailedTransformation (transformation : string) (message : string)
| KeyError (key : string)
| TypeError (message : string)
| OtherException (description : string).

(** Effectful code runs in the external world [W] (the caller's objects, the
    process environment, the macro store, the Lambda functions) and either
    raises or returns. *)
Definition M (W A : Type) : Type := W -> (exn + A) * W.

Definition ret {W A} (a : A) : M W A := fun w => (inr a, w).

Definition raise {W A} (e : exn) : M W A := fun w => (inl e, w).

Definition bind {W A B} (m : M W A) (k : A -> M W B) : M W B :=
  fun w =>
    match m w with
    | (inl e, w') => (inl e, w')
    | (inr a, w') => k a w'
    end.

Notation "x <- m ;; k" := (bind m (fun x => k))
  (at level 61, m at next level, right associativity).

(** [apply_serverless_transformation] and [execute_macro] hand the template
    to the SAM translator and to a Lambda function of the macro store; they
    enter the model as operations of the external world. *)
Class Transformers (W : Type) : Type := {
  apply_serverless_transformation : dict -> M W dict;
  execute_macro : dict -> pyvalue -> list pyvalue -> M W dict
}.

(** [format_transforms(transforms)]: three independent [if]s, each appending
    to [formatted_transformations]. *)
Definition format_transforms (transforms : pyvalue) : list pyvalue :=
  let formatted_transformations : list pyvalue := [] in
  let formatted_transformations :=
    if isinstance_str transforms
    then formatted_transformations ++ [VDict [("Name", transforms)]]
    else formatted_transformations in
  let formatted_transformations :=
    if isinstance_dict transforms
    then formatted_transformations ++ [transforms]
    else formatted_transformations in
  let formatted_transformations :=
    match transforms with
    | VList items =>
        fold_left
          (fun acc transformation =>
             let acc :=
               if isinstance_str transformation
               then acc ++ [VDict [("Name", transformation)]]
               else acc in
             if isinstance_dict transformation
             then acc ++ [transformation]
             else acc)
          items formatted_transformations
    | _ => formatted_transformations
    end in
  formatted_transformations.

(** [transformation["Name"]]. *)
Definition subscript_Name (transformation : pyvalue) : exn + pyvalue :=
  match transformation with
  | VDict entries =>
      match dict_get "Name" entries with
      | Some v => inr v
      | None => inl (KeyError "Name")
      end
  | _ => inl (TypeError "not subscriptable by a str")
  end.

(** The [for] loop of [do_transformations], threading [result]. *)
Fixpoint transformations_loop {W} {T : Transformers W}
    (transformations : list pyvalue) (parameters : list pyvalue) (result : dict)
  : M W dict :=
  match transformations with
  | [] => ret result
  | transformation :: rest =>
      match subscript_Name transformation with
      | inl e => raise e
      | inr name =>
          if negb (isinstance_str name) then
            raise (CommonServiceException "ValidationError" 400
                     "Key Name of transform definition must be a string." true)
          else if eq_str name SERVERLESS_TRANSFORM then
            result' <- apply_serverless_transformation result ;;
            transformations_loop rest parameters result'
          else if eq_str name EXTENSIONS_TRANSFORM then
            transformations_loop rest parameters result
          else
            result' <- execute_macro result transformation parameters ;;
            transformations_loop rest parameters result'
      end
  end.

(** [do_transformations(template, parameters)]; [dict(template)] is a copy
    with the same entries. *)
Definition do_transformations {W} {T : Transformers W}
    (template : dict) (parameters : list pyvalue) : M W dict :=
  let result : dict := template in
  let transformations :=
    format_transforms (dict_get_default "Transform" (VList []) result) in
  transformations_loop transformations parameters result.

(** [transform_template(template, parameters, capabilities)]. *)
Definition transform_template {W} {T : Transformers W}
    (template : dict) (parameters : list pyvalue) (capabilities : list pyvalue)
  : M W dict :=
  if negb (str_in "CAPABILITY_AUTO_EXPAND" capabilities) then
    raise (InsufficientCapabilitiesException
             "Requires capabilities : [CAPABILITY_AUTO_EXPAND]")
  else
    do_transformations template parameters.

(** What a list element contributes to the result of [format_transforms],
    in the words of its description: a string becomes a dict with its name,
    a dict stays, anything else is dropped. *)
Definition formatted_element (e : pyvalue) : list pyvalue :=
  match e with
  | VStr _ => [VDict [("Name", e)]]
  | VDict _ => [e]
  | _ => []
  end.

(** A transform named "AWS::LanguageExtensions": the name itself, or a dict
    whose ["Name"] is that name. *)
Definition names_extensions (e : pyvalue) : bool :=
  match e with
  | VStr s => String.eqb s EXTENSIONS_TRANSFORM
  | VDict entries =>
      match dict_get "Name" entries with
      | Some (VStr s) => String.eqb s EXTENSIONS_TRANSFORM
      | _ => false
      end
  | _ => false
  end.

(** The ["Transform"] entry of [template] is absent, or a list (possibly
    empty) of transforms named "AWS::LanguageExtensions", or one such
    transform. *)
Definition only_extensions (template : dict) : Prop :=
  match dict_get "Transform" template with
  | None => True
  | Some (VList items) => forallb names_extensions items = true
  | Some transform => names_extensions transform = true
  end.

(** The transformers never raise [InsufficientCapabilitiesException]: the
    bodies of [apply_serverless_transformation] and [execute_macro] raise
    [FailedTransformation] only. *)
Definition never_insufficient {W} (T : Transformers W) : Prop :=
  (forall template w message,
      fst (apply_serverless_transformation template w)
      <> inl (InsufficientCapabilitiesException message)) /\
  (forall template macro parameters w message,
      fst (execute_macro template macro parameters w)
      <> inl (InsufficientCapabilitiesException message)).

(** A world that counts the transformer calls made in it: the SAM
    translation returns the template, no macro is registered. *)
Definition counting : Transformers nat := {|
  apply_serverless_transformation := fun template w => (inr template, S w);
  execute_macro := fun _ _ _ w => (inl (FailedTransformation "macro" "2DO"), S w)
|}.

End template_preparer.

(** ** The path evaluator ([jsonpath_ng]) *)

Module jsonpath_ng.

(** A match: the value found and where it sits in the document. *)
Inductive step : Type :=
| Key (name : string)
| Idx (i : nat).

Record DatumInContext : Type := {
  value : pyvalue;
  full_path : list step
}.

(** The capability [SecondsPath] consumes: [parse(path)] builds an
    expression or raises (here [None]); [expr.find(document)] returns the
    ordered sequence of matches and changes nothing. *)
Class PathEvaluator : Type := {
  expr : Type;
  parse : string -> option expr;
  find : expr -> pyvalue -> list DatumInContext
}.

(** The fragment [$], [$.name], [$.*] and their compositions, with the
    library's constructors. Paths outside the fragment are not modelled:
    [parse_fragment] answers [None] for them, as for a path the library
    rejects. *)
Inductive JSONPath : Type :=
| Root
| Fields (field : string)
| Child (lhs rhs : JSONPath).

(** [Fields.find]: subscripting anything but a dict by a field name raises
    inside the library and yields no match; [*] ranges over the keys. *)
Definition find_fields (field : string) (datum : DatumInContext)
  : list DatumInContext :=
  match value datum with
  | VDict entries =>
      if String.eqb field "*" then
        map (fun kv : string * pyvalue =>
               {| value := snd kv; full_path := full_path datum ++ [Key (fst kv)] |})
            entries
      else
        match dict_get field entries with
        | Some v => [{| value := v; full_path := full_path datum ++ [Key field] |}]
        | None => []
        end
  | _ => []
  end.

(** [find] on a datum in the context of the document [root]. *)
Fixpoint find_in (root : pyvalue) (p : JSONPath) (datum : DatumInContext)
  : list DatumInContext :=
  match p with
  | Root => [{| value := root; full_path := [] |}]
  | Fields field => find_fields field datum
  | Child lhs rhs => flat_map (find_in root rhs) (find_in root lhs datum)
  end.

Definition find_document (p : JSONPath) (document : pyvalue)
  : list DatumInContext :=
  find_in document p {| value := document; full_path := [] |}.

(** Splitting the path text at its dots. *)
Fixpoint split_on (sep : ascii) (s : string) : list string :=
  match s with
  | EmptyString => [EmptyString]
  | String c rest =>
      match split_on sep rest with
      | [] => []
      | hd :: tl =>
          if Ascii.eqb c sep then EmptyString :: hd :: tl
          else String c hd :: tl
      end
  end.

Definition is_id_start (c : ascii) : bool :=
  let n := nat_of_ascii c in
  (Nat.leb 65 n && Nat.leb n 90) || (Nat.leb 97 n && Nat.leb n 122) || Nat.eqb n 95.

Definition is_id_char (c : ascii) : bool :=
  let n := nat_of_ascii c in
  is_id_start c || (Nat.leb 48 n && Nat.leb n 57).

Fixpoint all_chars (f : ascii -> bool) (s : string) : bool :=
  match s with
  | EmptyString => true
  | String c rest => f c && all_chars f rest
  end.

(** A field of the fragment: [*], or an identifier made of letters, digits
    and underscores; [where] is a reserved word of the library, which it
    rejects as a field. *)
Definition is_field_name (s : string) : bool :=
  match s with
  | EmptyString => false
  | String c rest =>
      String.eqb s "*"
      || (is_id_start c && all_chars is_id_char rest
          && negb (String.eqb s "where"))
  end.

Definition parse_fragment (path : string) : option JSONPath :=
  match split_on "."%char path with
  | "$" :: segments =>
      fold_left
        (fun acc segment =>
           match acc with
           | Some lhs =>
               if is_field_name segment then Some (Child lhs (Fields segment))
               else None
           | None => None
           end)
        segments (Some Root)
  | _ => None
  end.

#[export] Instance fragment : PathEvaluator := {
  expr := JSONPath;
  parse := parse_fragment;
  find := find_document
}.

End jsonpath_ng.
Import jsonpath_ng.

(** ** [seconds_path.py] *)

Module seconds_path.

(** What the variable [seconds] of [_eval_body] and the argument of
    [Seconds(...)] may hold: a document value, or the list of matches that
    [find] returns. *)
Inductive object : Type :=
| Value (v : pyvalue)
| Matches (found : list DatumInContext).

(** Modelled from the spec: the error taxonomy of section 7 (the classes
    raising structured errors are not among the sources). *)
Inductive ErrorName : Type :=
| DefinitionError
| RuntimeError
| NoChoiceMatched
| Timeout
| TaskFailed
| BranchFailed.

Record StructuredError : Type := {
  name : ErrorName;
  cause : string
}.

(** How an evaluation ends: it hands a wait to the suspension step, fails
    with a structured error, or lets the exception of [parse] through. *)
Inductive Outcome : Type :=
| Resolved (wait : object)
| Failed (error : StructuredError)
| PathParserError (path : string).

Definition is_runtime_error (o : Outcome) : bool :=
  match o with
  | Failed {| name := RuntimeError |} => true
  | _ => false
  end.

Definition is_failure (o : Outcome) : bool :=
  match o with
  | Resolved _ => false
  | _ => true
  end.

(** Modelled from the spec: the Environment (class [Environment] of
    [eval/environment.py] is not among the sources; [_eval_body] reads its
    attribute [inp]). Section 3: it "holds the current working document, a
    context scope [...], the current structured error (if any), per-state
    retry attempt counters, and a cancellation flag". *)
Record Environment : Type := {
  inp : pyvalue;
  context_scope : pyvalue;
  current_error : option StructuredError;
  attempts : list (string * nat);
  cancelled : bool
}.

(** The environment [env] with [document] as its working document. *)
Definition with_inp (document : pyvalue) (env : Environment) : Environment :=
  {| inp := document;
     context_scope := context_scope env;
     current_error := current_error env;
     attempts := attempts env;
     cancelled := cancelled env |}.

(** [Seconds(seconds)]: the literal wait function, holding what it was
    built with. *)
Record Seconds : Type := {
  seconds : object
}.

(** [Seconds.eval(env)]: the class [Seconds] is imported from a file that is
    not among the sources, so its evaluation is an interface. *)
Class SecondsSemantics : Type := {
  Seconds_eval : Seconds -> Environment -> Outcome * Environment
}.

(** A [Seconds] that only reports what it was built with, checking
    nothing: the words "literal value, used as-is" of section 4.2 taken
    alone. It shows what [_eval_body] hands on; it is not the evaluation the
    spec describes, which checks the value ([Seconds_checked] below). *)
Definition Seconds_as_is : SecondsSemantics :=
  {| Seconds_eval := fun self env => (Resolved (seconds self), env) |}.

Definition NOT_A_DURATION : string :=
  "the seconds of a wait must be a non-negative integer".

(** Modelled from the spec: the evaluation of the literal [Seconds] wait
    function, whose class is imported by [seconds_path.py] from a file that
    is not among the sources. Section 4.2: "Seconds: literal value, used
    as-is"; section 3: "a Wait Specification resolving to seconds must yield
    a non-negative integer or the evaluation fails"; section 4.2: "All such
    failures surface as a structured error with a runtime-error
    classification", the resolver "mutating nothing but producing a value
    consumed by the Interpreter Loop's suspension step". *)
Definition Seconds_checked : SecondsSemantics :=
  {| Seconds_eval := fun self env =>
       match seconds self with
       | Value (VInt z) =>
           if (0 <=? z)%Z then (Resolved (Value (VInt z)), env)
           else (Failed {| name := RuntimeError; cause := NOT_A_DURATION |}, env)
       | _ => (Failed {| name := RuntimeError; cause := NOT_A_DURATION |}, env)
       end |}.

Record SecondsPath : Type := {
  path : string
}.

(** [SecondsPath._eval_body(env)]. *)
Definition SecondsPath_eval_body {PE : PathEvaluator} {SE : SecondsSemantics}
    (self : SecondsPath) (env : Environment) : Outcome * Environment :=
  match parse (path self) with
  | None => (PathParserError (path self), env)
  | Some input_expr =>
      let seconds := find input_expr (inp env) in
      let seconds_func := Build_Seconds (Matches seconds) in
      Seconds_eval seconds_func env
  end.

(** The wait function [seconds_func] that [_eval_body] builds (its line
    26), when [parse] succeeds. *)
Definition SecondsPath_seconds_func {PE : PathEvaluator}
    (self : SecondsPath) (env : Environment) : option Seconds :=
  match parse (path self) with
  | None => None
  | Some input_expr => Some (Build_Seconds (Matches (find input_expr (inp env))))
  end.

(** An environment of a fresh execution working on [document]. *)
Definition initial_environment (document : pyvalue) : Environment :=
  {| inp := document;
     context_scope := VNone;
     current_error := None;
     attempts := [];
     cancelled := false |}.

End seconds_path.

(** ** [template_preparer.py]: shapes of transforms *)

Module transforms.
Import template_preparer.

(** The formatted transform [t] is the one the loop of [do_transformations]
    skips: its ["Name"] is "AWS::LanguageExtensions". *)
Definition is_extensions (t : pyvalue) : bool :=
  match subscript_Name t with
  | inr name => eq_str name EXTENSIONS_TRANSFORM
  | inl _ => false
  end.

(** A ["Transform"] entry that holds no transform at all: neither a string
    nor a dict, and if a list, one without a string or a dict in it. *)
Definition holds_no_transform (transforms : pyvalue) : bool :=
  match transforms with
  | VStr _ | VDict _ => false
  | VList items =>
      forallb (fun e => negb (isinstance_str e || isinstance_dict e)) items
  | _ => true
  end.

(** A macro name: a string that is neither of the two built-in transforms. *)
Definition is_macro_name (s : string) : bool :=
  negb (String.eqb s SERVERLESS_TRANSFORM)
  && negb (String.eqb s EXTENSIONS_TRANSFORM).

(** Running [m] and then [k] on what it returns, in the world it leaves. *)
Definition then_run {W A B} (r : (exn + A) * W) (k : A -> M W B)
  : (exn + B) * W :=
  match r with
  | (inl e, w) => (inl e, w)
  | (inr a, w) => k a w
  end.

(** Transformers that look at the name they are called with: a macro with
    a proper name is not registered, anything else would come back as an
    empty template. *)
Definition counting_by_name : Transformers nat := {|
  apply_serverless_transformation := fun template w => (inr template, S w);
  execute_macro := fun _ macro _ w =>
    match subscript_Name macro with
    | inr (VStr s) =>
        if is_macro_name s
        then (inl (FailedTransformation "macro" "2DO"), S w)
        else (inr [], w)
    | _ => (inr [], w)
    end
|}.

(** Transformers whose macro lets an [InsufficientCapabilitiesException]
    through, as [execute_macro] does with whatever [run_lambda] raises. *)
Definition lambda_raising : Transformers nat := {|
  apply_serverless_transformation := fun template w => (inr template, S w);
  execute_macro := fun _ _ _ w =>
    (inl (InsufficientCapabilitiesException "raised by the Lambda function"),
     S w)
|}.

End transforms.

(** ** [template_preparer.py]: [apply_serverless_transformation] *)

Module sam_transformation.
Import template_preparer.

(** The process the function runs in: the environment variable
    [AWS_DEFAULT_REGION] of [os.environ], and everything else. *)
Record Process (R : Type) : Type := {
  AWS_DEFAULT_REGION : option string;
  outside : R
}.
Arguments AWS_DEFAULT_REGION {R} _.
Arguments outside {R} _.

(** [os.environ["AWS_DEFAULT_REGION"] = region]. *)
Definition environ_set {R} (region : string) (w : Process R) : Process R :=
  {| AWS_DEFAULT_REGION := Some region; outside := outside w |}.

(** [os.environ.pop("AWS_DEFAULT_REGION", None)]. *)
Definition environ_pop {R} (w : Process R) : Process R :=
  {| AWS_DEFAULT_REGION := None; outside := outside w |}.

(** How the call of the SAM translator ends: it returns the transformed
    template, raises an [Exception] (of which the code keeps [str(e)]), or
    raises something that is not an [Exception]. *)
Inductive sam_outcome : Type :=
| SamReturned (transformed : dict)
| SamException (str_e : string)
| SamBaseException (description : string).

(** What the function calls: [boto3.session.Session().region_name],
    [aws_stack.get_region()], [create_policy_loader()] and
    [transform_sam(template, {}, loader)]. The last two may do anything to
    the process, the environment variable included. *)
Class SamRuntime (R : Type) : Type := {
  Loader : Type;
  session_region_name : Process R -> option string;
  get_region : Process R -> string;
  create_policy_loader : Process R -> (exn + Loader) * Process R;
  transform_sam : dict -> Loader -> Process R -> sam_outcome * Process R
}.

(** The [finally] block: pop the variable, then put [region_before] back if
    there was one. *)
Definition restore_region {R} (region_before : option string) (w : Process R)
  : Process R :=
  let w := environ_pop w in
  match region_before with
  | Some region => environ_set region w
  | None => w
  end.

(** [apply_serverless_transformation(parsed_template)]. *)
Definition apply_serverless_transformation_body {R} {RT : SamRuntime R}
    (parsed_template : dict) : M (Process R) dict :=
  fun w =>
    let region_before := AWS_DEFAULT_REGION w in
    let w :=
      match session_region_name w with
      | None => environ_set (get_region w) w
      | Some _ => w
      end in
    match create_policy_loader w with
    | (inl e, w) => (inl e, w)
    | (inr loader, w) =>
        match transform_sam parsed_template loader w with
        | (SamReturned transformed, w) =>
            (inr transformed, restore_region region_before w)
        | (SamException str_e, w) =>
            (inl (FailedTransformation SERVERLESS_TRANSFORM str_e),
             restore_region region_before w)
        | (SamBaseException description, w) =>
            (inl (OtherException description), restore_region region_before w)
        end
    end.

(** The process in which the policy loader is created: the variable has
    been set if boto3 knew no region (lines 151 and 152). *)
Definition region_prepared {R} {RT : SamRuntime R} (w : Process R) : Process R :=
  match session_region_name w with
  | None => environ_set (get_region w) w
  | Some _ => w
  end.

(** A process for trying things out: the rest of the world counts the calls
    of the translator; boto3 knows a region when the variable is set; the
    translator fails on an empty template and otherwise tags the template,
    and it overwrites the variable. *)
Definition demo_runtime : SamRuntime nat := {|
  Loader := unit;
  session_region_name := fun w => AWS_DEFAULT_REGION w;
  get_region := fun _ => "us-east-1";
  create_policy_loader := fun w => (inr tt, w);
  transform_sam := fun template _ w =>
    let w' := {| AWS_DEFAULT_REGION := Some "changed"; outside := S (outside w) |} in
    match template with
    | [] => (SamException "empty template", w')
    | _ => (SamReturned (("Transformed", VBool true) :: template), w')
    end
|}.

(** The same, with a policy loader that cannot be created. *)
Definition demo_runtime_without_loader : SamRuntime nat := {|
  Loader := unit;
  session_region_name := fun w => AWS_DEFAULT_REGION w;
  get_region := fun _ => "us-east-1";
  create_policy_loader := fun w => (inl (OtherException "no loader"), w);
  transform_sam := fun template _ w => (SamReturned template, w)
|}.

End sam_transformation.

(** ** [template_preparer.py]: the parts of [execute_macro] that compute *)

Module macro_execution.
Import template_preparer.

(** What these parts raise or let through; a [FailedTransformation] and a
    [KeyError] hold the object they were raised with. *)
Inductive raised : Type :=
| RaisedFailedTransformation (transformation : pyvalue) (message : string)
| RaisedKeyError (key : pyvalue)
| RaisedTypeError
| RaisedAttributeError
| RaisedJSONDecodeError
| RaisedUnicodeDecodeError
| RaisedByLambda (description : string).

(** [v[key]] for a string [key]: only a dict can be subscripted by a
    string. *)
Definition subscript (v : pyvalue) (key : string) : raised + pyvalue :=
  match v with
  | VDict entries =>
      match dict_get key entries with
      | Some x => inr x
      | None => inl (RaisedKeyError (VStr key))
      end
  | _ => inl RaisedTypeError
  end.

(** Lists and dicts cannot be keys of a dict. *)
Definition hashable (v : pyvalue) : bool :=
  match v with
  | VList _ | VDict _ => false
  | _ => true
  end.

(** Equality of keys: [None], strings, and numbers, where [True] is 1 and
    [False] is 0. *)
Definition as_number (v : pyvalue) : option Z :=
  match v with
  | VBool true => Some 1%Z
  | VBool false => Some 0%Z
  | VInt z => Some z
  | _ => None
  end.

Definition key_eqb (a b : pyvalue) : bool :=
  match a, b with
  | VNone, VNone => true
  | VStr s, VStr t => String.eqb s t
  | _, _ =>
      match as_number a, as_number b with
      | Some x, Some y => Z.eqb x y
      | _, _ => false
      end
  end.

(** A dict whose keys are any hashable values, as the dict comprehension of
    [execute_macro] builds it. *)
Definition pydict : Type := list (pyvalue * pyvalue).

(** [d[key]], when [key] is there. *)
Fixpoint pydict_get (key : pyvalue) (d : pydict) : option pyvalue :=
  match d with
  | [] => None
  | (k, v) :: rest => if key_eqb key k then Some v else pydict_get key rest
  end.

(** [d[key] = v]: an equal key keeps its place and takes the new value, a
    new key goes last. *)
Fixpoint pydict_set (key v : pyvalue) (d : pydict) : pydict :=
  match d with
  | [] => [(key, v)]
  | (k, old) :: rest =>
      if key_eqb key k then (k, v) :: rest
      else (k, old) :: pydict_set key v rest
  end.

(** The comprehension
    [{param["ParameterKey"]: param["ParameterValue"] for param in ...}],
    filling the dict [acc]: the key is evaluated, then the value, then the
    item is stored. *)
Fixpoint comprehension (stack_parameters : list pyvalue) (acc : pydict)
  : raised + pydict :=
  match stack_parameters with
  | [] => inr acc
  | param :: rest =>
      match subscript param "ParameterKey" with
      | inl e => inl e
      | inr key =>
          match subscript param "ParameterValue" with
          | inl e => inl e
          | inr v =>
              if hashable key then comprehension rest (pydict_set key v acc)
              else inl RaisedTypeError
          end
      end
  end.

(** [formatted_stack_parameters] (lines 93 to 95). *)
Definition formatted_stack_parameters (stack_parameters : list pyvalue)
  : raised + pydict :=
  comprehension stack_parameters [].

(** One turn of the loop of lines 98 to 100, for the value [v] of a
    parameter: [formatted_stack_parameters[v["Ref"]]] if [v] is a dict with
    a ["Ref"], and [v] otherwise. *)
Definition resolve_parameter (formatted_stack_parameters : pydict)
    (v : pyvalue) : raised + pyvalue :=
  match v with
  | VDict entries =>
      match dict_get "Ref" entries with
      | Some ref =>
          if hashable ref then
            match pydict_get ref formatted_stack_parameters with
            | Some x => inr x
            | None => inl (RaisedKeyError ref)
            end
          else inl RaisedTypeError
      | None => inr v
      end
  | _ => inr v
  end.

(** The loop over the items, assigning under the key it is at. *)
Fixpoint resolve_items (formatted_stack_parameters : pydict) (items : dict)
  : raised + dict :=
  match items with
  | [] => inr []
  | (k, v) :: rest =>
      match resolve_parameter formatted_stack_parameters v with
      | inl e => inl e
      | inr v' =>
          match resolve_items formatted_stack_parameters rest with
          | inl e => inl e
          | inr rest' => inr ((k, v') :: rest')
          end
      end
  end.

(** [formatted_transform_parameters] after the loop (lines 97 to 100):
    [macro.get("Parameters", {})], then [.items()], which only a dict
    has. *)
Definition formatted_transform_parameters (macro : dict)
    (formatted_stack_parameters : pydict) : raised + dict :=
  match dict_get_default "Parameters" (VDict []) macro with
  | VDict items => resolve_items formatted_stack_parameters items
  | _ => inl RaisedAttributeError
  end.

(** What [json.loads] takes: a [str], or the bytes of a [bytes] or of a
    [bytearray]. *)
Inductive json_source : Type :=
| SourceStr (text : string)
| SourceBytes (data : string).

(** How [json.loads] ends on such a source: with the value parsed, with a
    [JSONDecodeError], or, for bytes that cannot be decoded, with a
    [UnicodeDecodeError]. *)
Inductive loads_outcome : Type :=
| Loaded (result : pyvalue)
| LoadsJSONDecodeError
| LoadsUnicodeDecodeError.

(** What [invocation.result] is: a flask [Response], something that
    [json.loads] takes, or any other object. *)
Inductive invocation_result : Type :=
| ResultResponse (status_code : Z)
| ResultSource (source : json_source)
| ResultOther.

(** How [run_lambda] ends. *)
Inductive lambda_outcome : Type :=
| LambdaReturned (result : invocation_result)
| LambdaTypeError
| LambdaRaised (description : string).

(** What the rest relies on: [json.loads] on a [str], [bytes] or
    [bytearray], and [str] on an object that is not a string. *)
Class PythonLibrary : Type := {
  json_loads : json_source -> loads_outcome;
  str_of_object : pyvalue -> string
}.

(** [str(v)], as an f-string applies it. *)
Definition py_str {L : PythonLibrary} (v : pyvalue) : string :=
  match v with
  | VStr s => s
  | _ => str_of_object v
  end.

(** The truth value of an object. *)
Definition truthy (v : pyvalue) : bool :=
  match v with
  | VNone => false
  | VBool b => b
  | VInt z => negb (Z.eqb z 0)
  | VStr s => negb (String.eqb s "")
  | VList items => match items with [] => false | _ => true end
  | VDict entries => match entries with [] => false | _ => true end
  end.

Definition UNSUPPORTED_STRUCTURE : string :=
  "Template format error: unsupported structure.. Rollback requested by user.".

(** The [try] block (lines 116 to 128): [result], or what is raised.
    [json.loads] takes a [str], [bytes] or [bytearray]; given anything else
    (a [Response] included) it raises a [TypeError], which the [except]
    clause turns into a [FailedTransformation]. Its other exceptions go
    through. *)
Definition parsed_result {L : PythonLibrary} (name : pyvalue)
    (transformation_id : string) (outcome : lambda_outcome)
  : raised + pyvalue :=
  match outcome with
  | LambdaRaised description => inl (RaisedByLambda description)
  | LambdaTypeError => inl (RaisedFailedTransformation name UNSUPPORTED_STRUCTURE)
  | LambdaReturned (ResultResponse status_code) =>
      if Z.eqb status_code 500 then
        inl (RaisedFailedTransformation name
               ("Received malformed response from transform "
                ++ transformation_id ++ ". Rollback requested by user.")%string)
      else inl (RaisedFailedTransformation name UNSUPPORTED_STRUCTURE)
  | LambdaReturned (ResultSource source) =>
      match json_loads source with
      | Loaded result => inr result
      | LoadsJSONDecodeError => inl RaisedJSONDecodeError
      | LoadsUnicodeDecodeError => inl RaisedUnicodeDecodeError
      end
  | LambdaReturned ResultOther =>
      inl (RaisedFailedTransformation name UNSUPPORTED_STRUCTURE)
  end.

(** Lines 130 to 145: from [result] to the fragment returned. *)
Definition fragment_of_result {L : PythonLibrary} (name : pyvalue)
    (transformation_id : string) (result : pyvalue) : raised + dict :=
  match result with
  | VDict entries =>
      if negb (eq_str (dict_get_default "status" VNone entries) "success") then
        let error_message := dict_get_default "errorMessage" VNone entries in
        let message :=
          if truthy error_message then
            ("Transform " ++ transformation_id ++ " failed with: "
             ++ py_str error_message ++ ". Rollback requested by user.")%string
          else
            ("Transform " ++ transformation_id
             ++ " failed without an error message.. Rollback requested by user.")%string in
        inl (RaisedFailedTransformation name message)
      else
        match dict_get_default "fragment" VNone entries with
        | VDict fragment => inr fragment
        | _ => inl (RaisedFailedTransformation name UNSUPPORTED_STRUCTURE)
        end
  | _ => inl RaisedAttributeError
  end.

(** Lines 115 to 145 of [execute_macro], given how [run_lambda] ended. *)
Definition macro_fragment {L : PythonLibrary} (name : pyvalue)
    (transformation_id : string) (outcome : lambda_outcome) : raised + dict :=
  match parsed_result name transformation_id outcome with
  | inl e => inl e
  | inr result => fragment_of_result name transformation_id result
  end.

(** The stack parameter [param] can go into the comprehension. *)
Definition is_stack_parameter (param : pyvalue) : bool :=
  match param with
  | VDict entries =>
      match dict_get "ParameterKey" entries, dict_get "ParameterValue" entries with
      | Some key, Some _ => hashable key
      | _, _ => false
      end
  | _ => false
  end.

(** The value given last for [key] among [stack_parameters], in the words
    of a reader: go through the parameters, remember the value each time
    the key is met. *)
Definition last_value (key : pyvalue) (stack_parameters : list pyvalue)
  : option pyvalue :=
  fold_left
    (fun found param =>
       match param with
       | VDict entries =>
           match dict_get "ParameterKey" entries, dict_get "ParameterValue" entries with
           | Some k, Some v => if key_eqb key k then Some v else found
           | _, _ => found
           end
       | _ => found
       end)
    stack_parameters None.

(** A parameter that refers to a stack parameter. *)
Definition has_ref (v : pyvalue) : bool :=
  match v with
  | VDict entries =>
      match dict_get "Ref" entries with Some _ => true | None => false end
  | _ => false
  end.

(** A library for trying things out: two texts are JSON, as a [str] or as
    bytes. *)
Definition demo_library : PythonLibrary := {|
  json_loads := fun source =>
    let text :=
      match source with SourceStr text => text | SourceBytes data => data end in
    if String.eqb text "ok" then
      Loaded (VDict [("status", VStr "success");
                     ("fragment", VDict [("Resources", VDict [])])])
    else if String.eqb text "failed" then
      Loaded (VDict [("status", VStr "failure"); ("errorMessage", VStr "boom")])
    else LoadsJSONDecodeError;
  str_of_object := fun _ => "<object>"
|}.

End macro_execution.

(** * Properties of [template_preparer.py] *)

Import template_preparer.

Example format_transforms_mixed_list :
  format_transforms
    (VList [VStr "A"; VInt 3; VDict [("Name", VStr "B")]; VNone; VStr "C"])
  = [VDict [("Name", VStr "A")]; VDict [("Name", VStr "B")];
     VDict [("Name", VStr "C")]].
Proof. reflexivity. Qed.

Example format_transforms_other_input :
  format_transforms (VInt 7) = [] /\ format_transforms VNone = [].
Proof. split; reflexivity. Qed.

Section FormatTransforms.

Let step (acc : list pyvalue) (transformation : pyvalue) : list pyvalue :=
  let acc :=
    if isinstance_str transformation
    then acc ++ [VDict [("Name", transformation)]]
    else acc in
  if isinstance_dict transformation then acc ++ [transformation] else acc.

Lemma step_appends (acc : list pyvalue) (e : pyvalue) :
  step acc e = acc ++ formatted_element e.
Proof.
  destruct e; unfold step; simpl; now rewrite ?app_nil_r.
Qed.

Lemma loop_appends (items acc : list pyvalue) :
  fold_left step items acc = acc ++ flat_map formatted_element items.
Proof.
  revert acc; induction items as [|e items IH]; intros acc; simpl.
  - now rewrite app_nil_r.
  - rewrite IH, step_appends, <- app_assoc. reflexivity.
Qed.

Lemma format_transforms_list (items : list pyvalue) :
  format_transforms (VList items) = flat_map formatted_element items.
Proof.
  unfold format_transforms; simpl. apply (loop_appends items []).
Qed.

Lemma formatted_element_dicts (e : pyvalue) :
  Forall (fun v => isinstance_dict v = true) (formatted_element e).
Proof.
  destruct e; simpl; repeat constructor.
Qed.

Lemma format_transforms_dicts (transforms : pyvalue) :
  Forall (fun v => isinstance_dict v = true) (format_transforms transforms).
Proof.
  destruct transforms as [| b | z | s | items | entries];
    try solve [cbv; repeat constructor].
  rewrite format_transforms_list.
  induction items as [|e items IH]; simpl; [constructor|].
  apply Forall_app; split; [apply formatted_element_dicts | exact IH].
Qed.

End FormatTransforms.

(** C10. [format_transforms] always returns a list of dicts: a string [s]
    yields [[{"Name": s}]]; a dict [d] yields [[d]]; a list yields, in input
    order, [{"Name": e}] for each string element [e] and each dict element
    unchanged, the elements of any other type being dropped. *)
Theorem format_transforms_returns_list_of_dicts :
  (forall s, format_transforms (VStr s) = [VDict [("Name", VStr s)]]) /\
  (forall d, format_transforms (VDict d) = [VDict d]) /\
  (forall items,
      format_transforms (VList items) = flat_map formatted_element items) /\
  (forall transforms,
      Forall (fun v => isinstance_dict v = true) (format_transforms transforms)).
Proof.
  repeat split.
  - apply format_transforms_list.
  - apply format_transforms_dicts.
Qed.

Example do_transformations_serverless_counts :
  do_transformations (T := counting)
    [("Transform", VStr SERVERLESS_TRANSFORM)] [] 0
  = (inr [("Transform", VStr SERVERLESS_TRANSFORM)], 1).
Proof. reflexivity. Qed.

Example do_transformations_name_not_a_string :
  fst (do_transformations (T := counting)
         [("Transform", VDict [("Name", VInt 1)])] [] 0)
  = inl (CommonServiceException "ValidationError" 400
           "Key Name of transform definition must be a string." true).
Proof. reflexivity. Qed.

Section DoTransformations.

Context {W : Type} {T : Transformers W}.

Lemma names_extensions_subscript (e : pyvalue) :
  names_extensions e = true ->
  Forall (fun t => subscript_Name t = inr (VStr EXTENSIONS_TRANSFORM))
         (formatted_element e).
Proof.
  destruct e as [| b | z | s | items | entries]; simpl; try discriminate.
  - intros Hs. apply String.eqb_eq in Hs. subst s. repeat constructor.
  - destruct (dict_get "Name" entries) as [[| b | z | s | items | d]|] eqn:Hget;
      try discriminate.
    intros Hs. apply String.eqb_eq in Hs. subst s.
    repeat constructor. simpl. now rewrite Hget.
Qed.

Lemma loop_skips_extensions (transformations parameters : list pyvalue)
    (result : dict) (w : W) :
  Forall (fun t => subscript_Name t = inr (VStr EXTENSIONS_TRANSFORM))
         transformations ->
  transformations_loop transformations parameters result w = (inr result, w).
Proof.
  induction 1 as [|t rest Ht _ IH]; simpl.
  - reflexivity.
  - rewrite Ht. simpl. exact IH.
Qed.

Lemma only_extensions_formatted (template : dict) :
  only_extensions template ->
  Forall (fun t => subscript_Name t = inr (VStr EXTENSIONS_TRANSFORM))
         (format_transforms (dict_get_default "Transform" (VList []) template)).
Proof.
  unfold only_extensions, dict_get_default.
  destruct (dict_get "Transform" template) as [transform|]; [|constructor].
  destruct transform as [| b | z | s | items | entries];
    try (intros Hn; now apply (names_extensions_subscript _ Hn)).
  rewrite format_transforms_list.
  induction items as [|e items IH]; simpl; [constructor|].
  intros Hall. apply andb_prop in Hall as [He Hitems].
  apply Forall_app; split; [now apply names_extensions_subscript | now apply IH].
Qed.

(** C9. For every template whose ["Transform"] entry is absent, an empty
    list, or contains only transforms named "AWS::LanguageExtensions",
    [do_transformations] returns a dict equal to the input template: the
    transform is skipped, no transformer is run and the world is as it
    was. *)
Theorem do_transformations_skips_language_extensions
    (template : dict) (parameters : list pyvalue) (w : W) :
  only_extensions template ->
  do_transformations template parameters w = (inr template, w).
Proof.
  intros Honly. unfold do_transformations.
  apply loop_skips_extensions, only_extensions_formatted, Honly.
Qed.

End DoTransformations.

Lemma do_transformations_skips_language_extensions_witness :
  do_transformations (T := counting)
    [("Transform",
      VList [VStr "AWS::LanguageExtensions";
             VDict [("Name", VStr "AWS::LanguageExtensions")]]);
     ("Resources", VDict [])]
    [] 0
  = (inr [("Transform",
           VList [VStr "AWS::LanguageExtensions";
                  VDict [("Name", VStr "AWS::LanguageExtensions")]]);
          ("Resources", VDict [])],
     0).
Proof.
  apply (do_transformations_skips_language_extensions (T := counting)).
  reflexivity.
Defined.

Example transform_template_without_capability :
  transform_template (T := counting)
    [("Transform", VStr SERVERLESS_TRANSFORM)] [] [VStr "CAPABILITY_IAM"] 0
  = (inl (InsufficientCapabilitiesException
            "Requires capabilities : [CAPABILITY_AUTO_EXPAND]"), 0).
Proof. reflexivity. Qed.

Example transform_template_with_capability :
  transform_template (T := counting)
    [("Transform", VStr SERVERLESS_TRANSFORM)] []
    [VStr "CAPABILITY_IAM"; VStr "CAPABILITY_AUTO_EXPAND"] 0
  = (inr [("Transform", VStr SERVERLESS_TRANSFORM)], 1).
Proof. reflexivity. Qed.

Lemma str_in_In (s : string) (l : list pyvalue) :
  str_in s l = true <-> In (VStr s) l.
Proof.
  unfold str_in. rewrite existsb_exists. split.
  - intros [v [Hin Hv]]. destruct v; try discriminate.
    apply String.eqb_eq in Hv. now subst.
  - intros Hin. exists (VStr s). split; [exact Hin | apply String.eqb_refl].
Qed.

Section TransformTemplate.

Context {W : Type} {T : Transformers W}.
Hypothesis transformers_ok : never_insufficient T.

Lemma loop_never_insufficient (transformations parameters : list pyvalue) :
  forall (result : dict) (w : W) (message : string),
    fst (transformations_loop transformations parameters result w)
    <> inl (InsufficientCapabilitiesException message).
Proof.
  destruct transformers_ok as [Hsam Hmacro].
  induction transformations as [|t rest IH]; intros result w message; simpl.
  - discriminate.
  - destruct (subscript_Name t) as [e|name] eqn:Hname.
    + unfold subscript_Name in Hname.
      destruct t; try (inversion Hname; subst; simpl; discriminate).
      destruct (dict_get "Name" entries);
        inversion Hname; subst; simpl; discriminate.
    + destruct (negb (isinstance_str name)); [simpl; discriminate|].
      destruct (eq_str name SERVERLESS_TRANSFORM).
      * unfold bind.
        pose proof (Hsam result w message) as Hs.
        destruct (apply_serverless_transformation result w) as [[e|r] w'];
          [exact Hs | apply IH].
      * destruct (eq_str name EXTENSIONS_TRANSFORM); [apply IH|].
        unfold bind.
        pose proof (Hmacro result t parameters w message) as Hm.
        destruct (execute_macro result t parameters w) as [[e|r] w'];
          [exact Hm | apply IH].
Qed.

Lemma do_transformations_never_insufficient
    (template : dict) (parameters : list pyvalue) (w : W) (message : string) :
  fst (do_transformations template parameters w)
  <> inl (InsufficientCapabilitiesException message).
Proof.
  unfold do_transformations. apply loop_never_insufficient.
Qed.

End TransformTemplate.




(** * Properties of [seconds_path.py] *)

Import seconds_path.

Example parse_wait : parse_fragment "$.wait" = Some (Child Root (Fields "wait")).
Proof. reflexivity. Qed.

Example parse_nested :
  parse_fragment "$.a.b" = Some (Child (Child Root (Fields "a")) (Fields "b")).
Proof. reflexivity. Qed.

Example parse_reserved_word : parse_fragment "$.where" = None.
Proof. reflexivity. Qed.

Example find_nested :
  find_document (Child (Child Root (Fields "a")) (Fields "b"))
    (VDict [("a", VDict [("b", VInt 2)])])
  = [{| value := VInt 2; full_path := [Key "a"; Key "b"] |}].
Proof. reflexivity. Qed.

Example find_in_a_list_matches_nothing :
  find_document (Child Root (Fields "wait")) (VList [VInt 1]) = [].
Proof. reflexivity. Qed.

Section SecondsPathDelegation.

Context {PE : PathEvaluator} {SE : SecondsSemantics}.

(** With a path that parses, [_eval_body] is the evaluation of the
    [Seconds] built on the list of matches. *)
Lemma eval_body_parsed (self : SecondsPath) (env : Environment)
    (input_expr : expr) :
  parse (path self) = Some input_expr ->
  SecondsPath_eval_body self env
  = Seconds_eval (Build_Seconds (Matches (find input_expr (inp env)))) env.
Proof.
  intros Hparse. unfold SecondsPath_eval_body. now rewrite Hparse.
Qed.

Lemma eval_body_unparsed (self : SecondsPath) (env : Environment) :
  parse (path self) = None ->
  SecondsPath_eval_body self env = (PathParserError (path self), env).
Proof.
  intros Hparse. unfold SecondsPath_eval_body. now rewrite Hparse.
Qed.

Lemma seconds_func_parsed (self : SecondsPath) (env : Environment)
    (input_expr : expr) :
  parse (path self) = Some input_expr ->
  SecondsPath_seconds_func self env
  = Some (Build_Seconds (Matches (find input_expr (inp env)))).
Proof.
  intros Hparse. unfold SecondsPath_seconds_func. now rewrite Hparse.
Qed.

End SecondsPathDelegation.

(** C1, on the code. With path [$.wait] and working document [{"wait": 5}],
    [_eval_body] builds [Seconds] on the one-element list of matches, not on
    the integer 5: whatever the evaluation of [Seconds] is, it receives that
    list, and with the literal used as-is the wait handed on is the list and
    not 5. *)
Theorem SecondsPath_wait_5_hands_over_the_match_list (env : Environment) :
  let env5 := with_inp (VDict [("wait", VInt 5)]) env in
  let found := [{| value := VInt 5; full_path := [Key "wait"] |}] in
  (forall SE : SecondsSemantics,
      SecondsPath_eval_body (PE := fragment) (SE := SE) {| path := "$.wait" |} env5
      = Seconds_eval (Build_Seconds (Matches found)) env5) /\
  SecondsPath_seconds_func (PE := fragment) {| path := "$.wait" |} env5
  <> Some (Build_Seconds (Value (VInt 5))) /\
  fst (SecondsPath_eval_body (PE := fragment) (SE := Seconds_as_is)
         {| path := "$.wait" |} env5)
  = Resolved (Matches found) /\
  fst (SecondsPath_eval_body (PE := fragment) (SE := Seconds_as_is)
         {| path := "$.wait" |} env5)
  <> Resolved (Value (VInt 5)).
Proof.
  cbv zeta. repeat split; try reflexivity; simpl; discriminate.
Qed.

(** C3, on the code. With path [$.*] and working document
    [{"a": 1, "b": 2}] the path yields two matches, and [_eval_body] builds
    [Seconds] on the list of both, not on the value 1 of the first:
    whatever the evaluation of [Seconds] is, it receives that list, and the
    evaluation the spec describes rejects it with a runtime error instead
    of resolving the wait to 1. *)
Theorem SecondsPath_two_matches_hands_over_the_match_list (env : Environment) :
  let env2 := with_inp (VDict [("a", VInt 1); ("b", VInt 2)]) env in
  let found := [{| value := VInt 1; full_path := [Key "a"] |};
                {| value := VInt 2; full_path := [Key "b"] |}] in
  find_document (Child Root (Fields "*")) (inp env2) = found /\
  (forall SE : SecondsSemantics,
      SecondsPath_eval_body (PE := fragment) (SE := SE) {| path := "$.*" |} env2
      = Seconds_eval (Build_Seconds (Matches found)) env2) /\
  SecondsPath_seconds_func (PE := fragment) {| path := "$.*" |} env2
  <> Some (Build_Seconds (Value (VInt 1))) /\
  fst (SecondsPath_eval_body (PE := fragment) (SE := Seconds_checked)
         {| path := "$.*" |} env2)
  = Failed {| name := RuntimeError; cause := NOT_A_DURATION |} /\
  fst (SecondsPath_eval_body (PE := fragment) (SE := Seconds_checked)
         {| path := "$.*" |} env2)
  <> Resolved (Value (VInt 1)).
Proof.
  cbv zeta. repeat split; try reflexivity; simpl; discriminate.
Qed.

Example Seconds_checked_accepts_a_duration :
  fst (Seconds_eval (SecondsSemantics := Seconds_checked)
         (Build_Seconds (Value (VInt 5))) (initial_environment VNone))
  = Resolved (Value (VInt 5)).
Proof. reflexivity. Qed.

Example Seconds_checked_rejects_a_negative_duration :
  is_runtime_error
    (fst (Seconds_eval (SecondsSemantics := Seconds_checked)
            (Build_Seconds (Value (VInt (-1)))) (initial_environment VNone)))
  = true.
Proof. reflexivity. Qed.

Lemma Seconds_checked_frame (self : Seconds) (env : Environment) :
  snd (Seconds_eval (SecondsSemantics := Seconds_checked) self env) = env.
Proof.
  destruct self as [[v | found]]; simpl; [|reflexivity].
  destruct v as [| b | z | s | items | entries]; try reflexivity.
  now destruct (0 <=? z)%Z.
Qed.

Section SecondsPathChecked.

Context {PE : PathEvaluator}.

(** What [_eval_body] adds to the evaluation of [Seconds]: nothing that an
    observer of the Environment could see. *)
Lemma eval_body_frame {SE : SecondsSemantics} {A : Type}
    (observe : Environment -> A) :
  (forall seconds_func env,
      observe (snd (Seconds_eval seconds_func env)) = observe env) ->
  forall (self : SecondsPath) (env : Environment),
    observe (snd (SecondsPath_eval_body self env)) = observe env.
Proof.
  intros Hframe self env.
  destruct (parse (path self)) as [input_expr|] eqn:Hparse.
  - rewrite (eval_body_parsed self env input_expr Hparse). apply Hframe.
  - now rewrite (eval_body_unparsed self env Hparse).
Qed.

(** A list of matches is never a non-negative integer: with a path that
    parses, the evaluation of the [Seconds] that [_eval_body] builds fails,
    whatever was matched. *)
Lemma eval_body_checked_fails (self : SecondsPath) (env : Environment)
    (input_expr : expr) :
  parse (path self) = Some input_expr ->
  SecondsPath_eval_body (SE := Seconds_checked) self env
  = (Failed {| name := RuntimeError; cause := NOT_A_DURATION |}, env).
Proof.
  intros Hparse.
  now rewrite (eval_body_parsed (SE := Seconds_checked) self env input_expr Hparse).
Qed.





End SecondsPathChecked.




(** * Further properties of [template_preparer.py] *)

Import transforms.

Lemma flat_map_formatted_dicts (l : list pyvalue) :
  Forall (fun v => isinstance_dict v = true) l ->
  flat_map formatted_element l = l.
Proof.
  induction 1 as [|v l Hv _ IH]; simpl; [reflexivity|].
  destruct v; try discriminate. simpl. now rewrite IH.
Qed.

(** X1. Formatting is idempotent: formatting the list that
    [format_transforms] returned gives that list again. *)
Theorem format_transforms_idempotent (transforms : pyvalue) :
  format_transforms (VList (format_transforms transforms))
  = format_transforms transforms.
Proof.
  rewrite format_transforms_list.
  apply flat_map_formatted_dicts, format_transforms_dicts.
Qed.

(** A transform that is not a list and the one-element list holding it are
    formatted alike. *)
Lemma format_transforms_singleton (transforms : pyvalue) :
  isinstance_list transforms = false ->
  format_transforms (VList [transforms]) = format_transforms transforms.
Proof.
  destruct transforms; intros Hl; try reflexivity. discriminate.
Qed.

Lemma format_transforms_singleton_witness :
  format_transforms (VList [VStr "MyMacro"]) = format_transforms (VStr "MyMacro").
Proof.
  apply (format_transforms_singleton (VStr "MyMacro")). reflexivity.
Defined.

Example format_transforms_nested_list_dropped :
  format_transforms (VList [VList [VStr "MyMacro"]]) = [] /\
  format_transforms (VList [VStr "MyMacro"]) = [VDict [("Name", VStr "MyMacro")]].
Proof. split; reflexivity. Qed.

Section TransformationsLoop.

Context {W : Type} {T : Transformers W}.

Lemma then_run_assoc {A B C} (r : (exn + A) * W) (k : A -> M W B)
    (k' : B -> M W C) :
  then_run (then_run r k) k' = then_run r (fun a w => then_run (k a w) k').
Proof.
  destruct r as [[e|a] w]; reflexivity.
Qed.

Lemma bind_then_run {A B} (m : M W A) (k : A -> M W B) (w : W) :
  bind m k w = then_run (m w) k.
Proof. reflexivity. Qed.

Lemma loop_app
    (before after parameters : list pyvalue) (result : dict) (w : W) :
  transformations_loop (before ++ after) parameters result w
  = then_run (transformations_loop before parameters result w)
      (fun result' => transformations_loop after parameters result').
Proof.
  revert result w.
  induction before as [|t before IH]; intros result w; simpl; [reflexivity|].
  destruct (subscript_Name t) as [e|name]; [reflexivity|].
  destruct (negb (isinstance_str name)); [reflexivity|].
  destruct (eq_str name SERVERLESS_TRANSFORM).
  - rewrite !bind_then_run, then_run_assoc.
    destruct (apply_serverless_transformation result w) as [[e|r] w'];
      simpl; [reflexivity | apply IH].
  - destruct (eq_str name EXTENSIONS_TRANSFORM); [apply IH|].
    rewrite !bind_then_run, then_run_assoc.
    destruct (execute_macro result t parameters w) as [[e|r] w'];
      simpl; [reflexivity | apply IH].
Qed.

(** X2. The transforms are applied from left to right, each on the result
    of the one before and in the world it left; the first one that raises
    ends the loop, so that the transforms after it are not applied. *)
Theorem transformations_loop_app
    (before after parameters : list pyvalue) (result : dict) (w : W) :
  transformations_loop (before ++ after) parameters result w
  = then_run (transformations_loop before parameters result w)
      (fun result' => transformations_loop after parameters result').
Proof.
  apply loop_app.
Qed.

(** X3. Transforms named "AWS::LanguageExtensions" are neutral wherever
    they stand: removing them from the list changes neither the result nor
    the world the loop ends in. *)
Theorem transformations_loop_ignores_extensions
    (transformations parameters : list pyvalue) (result : dict) (w : W) :
  transformations_loop transformations parameters result w
  = transformations_loop
      (filter (fun t => negb (is_extensions t)) transformations)
      parameters result w.
Proof.
  revert result w.
  induction transformations as [|t rest IH]; intros result w; [reflexivity|].
  cbn [filter]. unfold is_extensions at 1.
  destruct (subscript_Name t) as [e|name] eqn:Hname.
  - cbn [negb transformations_loop]. now rewrite Hname.
  - destruct (eq_str name EXTENSIONS_TRANSFORM) eqn:Hext.
    + cbn [negb transformations_loop]. rewrite Hname.
      destruct name; try discriminate. simpl in Hext.
      apply String.eqb_eq in Hext. subst s. simpl. apply IH.
    + cbn [negb transformations_loop]. rewrite Hname.
      destruct (negb (isinstance_str name)); [reflexivity|].
      destruct (eq_str name SERVERLESS_TRANSFORM).
      * rewrite !bind_then_run.
        destruct (apply_serverless_transformation result w) as [[e|r] w'];
          simpl; [reflexivity | apply IH].
      * rewrite Hext, !bind_then_run.
        destruct (execute_macro result t parameters w) as [[e|r] w'];
          simpl; [reflexivity | apply IH].
Qed.

(** X4. A transform whose ["Name"] is not a string is rejected with the
    ValidationError of status 400, once the transforms before it have been
    applied: what they did to the world stays, and the transforms after it
    are not applied. *)
Theorem transformations_loop_name_not_a_string
    (before after parameters : list pyvalue) (t name : pyvalue)
    (result result' : dict) (w w' : W) :
  transformations_loop before parameters result w = (inr result', w') ->
  subscript_Name t = inr name ->
  isinstance_str name = false ->
  transformations_loop (before ++ t :: after) parameters result w
  = (inl (CommonServiceException "ValidationError" 400
            "Key Name of transform definition must be a string." true), w').
Proof.
  intros Hbefore Hname Hstr.
  rewrite loop_app, Hbefore. simpl.
  now rewrite Hname, Hstr.
Qed.

(** X5. A transform dict without a ["Name"] makes the loop raise
    [KeyError("Name")], not a ValidationError, once the transforms before it
    have been applied. *)
Theorem transformations_loop_name_missing
    (before after parameters : list pyvalue) (entries : dict)
    (result result' : dict) (w w' : W) :
  transformations_loop before parameters result w = (inr result', w') ->
  dict_get "Name" entries = None ->
  transformations_loop (before ++ VDict entries :: after) parameters result w
  = (inl (KeyError "Name"), w').
Proof.
  intros Hbefore Hname.
  rewrite loop_app, Hbefore. simpl.
  now rewrite Hname.
Qed.

End TransformationsLoop.

Lemma transformations_loop_name_not_a_string_witness :
  transformations_loop (T := counting)
    ([VDict [("Name", VStr SERVERLESS_TRANSFORM)]]
     ++ VDict [("Name", VInt 7)] :: [VDict [("Name", VStr "MyMacro")]])
    [] [("Resources", VDict [])] 0
  = (inl (CommonServiceException "ValidationError" 400
            "Key Name of transform definition must be a string." true), 1).
Proof.
  apply (transformations_loop_name_not_a_string (T := counting)
           [VDict [("Name", VStr SERVERLESS_TRANSFORM)]]
           [VDict [("Name", VStr "MyMacro")]] []
           (VDict [("Name", VInt 7)]) (VInt 7)
           [("Resources", VDict [])] [("Resources", VDict [])] 0 1);
    reflexivity.
Defined.

Lemma transformations_loop_name_missing_witness :
  transformations_loop (T := counting)
    ([VDict [("Name", VStr SERVERLESS_TRANSFORM)]]
     ++ VDict [("Parameters", VDict [])] :: [VDict [("Name", VStr "MyMacro")]])
    [] [("Resources", VDict [])] 0
  = (inl (KeyError "Name"), 1).
Proof.
  apply (transformations_loop_name_missing (T := counting)
           [VDict [("Name", VStr SERVERLESS_TRANSFORM)]]
           [VDict [("Name", VStr "MyMacro")]] []
           [("Parameters", VDict [])]
           [("Resources", VDict [])] [("Resources", VDict [])] 0 1);
    reflexivity.
Defined.

Lemma eq_str_macro_name (s : string) :
  is_macro_name s = true ->
  eq_str (VStr s) SERVERLESS_TRANSFORM = false /\
  eq_str (VStr s) EXTENSIONS_TRANSFORM = false.
Proof.
  unfold is_macro_name. intros H. apply andb_prop in H as [H1 H2].
  simpl. split; now apply negb_true_iff.
Qed.

Lemma holds_no_transform_formatted (transforms : pyvalue) :
  holds_no_transform transforms = true -> format_transforms transforms = [].
Proof.
  destruct transforms as [| b | z | s | items | entries];
    try reflexivity; try discriminate.
  intros Hall. rewrite format_transforms_list.
  induction items as [|e items IH]; [reflexivity|].
  simpl in Hall. apply andb_prop in Hall as [He Hitems].
  simpl. rewrite (IH Hitems). destruct e; try reflexivity; discriminate.
Qed.

(** X6. [execute_macro] is only ever asked about a transform whose ["Name"]
    is a string other than the two built-in names, and always with the
    stack parameters that [do_transformations] was given: two worlds of
    transformers that agree there (and on the SAM translation) make
    [do_transformations] end alike. *)
Theorem do_transformations_runs_macros_by_name
    {W : Type} (T1 T2 : Transformers W) (parameters : list pyvalue) :
  (forall template w,
      apply_serverless_transformation (Transformers := T1) template w
      = apply_serverless_transformation (Transformers := T2) template w) ->
  (forall template macro s w,
      subscript_Name macro = inr (VStr s) ->
      is_macro_name s = true ->
      execute_macro (Transformers := T1) template macro parameters w
      = execute_macro (Transformers := T2) template macro parameters w) ->
  forall (template : dict) (w : W),
    do_transformations (T := T1) template parameters w
    = do_transformations (T := T2) template parameters w.
Proof.
  intros Hsam Hmacro template w. unfold do_transformations. cbv zeta.
  generalize (format_transforms (dict_get_default "Transform" (VList []) template)).
  intros transformations. revert w. generalize template as result.
  induction transformations as [|t rest IH]; intros result w; simpl;
    [reflexivity|].
  destruct (subscript_Name t) as [e|name] eqn:Hname; [reflexivity|].
  destruct name as [| b | z | s | items | entries]; try reflexivity.
  cbn [isinstance_str negb].
  destruct (eq_str (VStr s) SERVERLESS_TRANSFORM) eqn:Hsrv.
  - rewrite !bind_then_run, Hsam.
    destruct (apply_serverless_transformation result w) as [[e|r] w'];
      simpl; [reflexivity | apply IH].
  - destruct (eq_str (VStr s) EXTENSIONS_TRANSFORM) eqn:Hext; [apply IH|].
    rewrite !bind_then_run, (Hmacro result t s w Hname).
    + destruct (execute_macro result t parameters w) as [[e|r] w'];
        simpl; [reflexivity | apply IH].
    + unfold is_macro_name. simpl in Hsrv, Hext. now rewrite Hsrv, Hext.
Qed.

Lemma do_transformations_runs_macros_by_name_witness :
  do_transformations (T := counting)
    [("Transform", VList [VStr "AWS::Serverless-2016-10-31"; VStr "MyMacro"])]
    [] 0
  = do_transformations (T := counting_by_name)
      [("Transform", VList [VStr "AWS::Serverless-2016-10-31"; VStr "MyMacro"])]
      [] 0.
Proof.
  apply (do_transformations_runs_macros_by_name counting counting_by_name []).
  - intros template w. reflexivity.
  - intros template macro s w Hname Hmacro. simpl.
    rewrite Hname, Hmacro. reflexivity.
Defined.

Section DoTransformationsEdges.

Context {W : Type} {T : Transformers W}.

(** X7. A ["Transform"] entry that holds no transform (it is [None], a
    boolean or a number, or a list without a string or a dict in it) is
    ignored without an error: [do_transformations] returns the template and
    leaves the world as it was. *)
Theorem do_transformations_ignores_other_types
    (template : dict) (parameters : list pyvalue) (transform : pyvalue) (w : W) :
  dict_get "Transform" template = Some transform ->
  holds_no_transform transform = true ->
  do_transformations template parameters w = (inr template, w).
Proof.
  intros Hget Hnone. unfold do_transformations, dict_get_default.
  rewrite Hget. cbv zeta.
  now rewrite (holds_no_transform_formatted transform Hnone).
Qed.

(** X8. A template with a single macro: when ["Transform"] is the name of a
    macro, the macro is run on the whole template with a transform made of
    that name only; when it is a dict with that ["Name"], the macro is run
    with that dict. What the macro returns or raises is the outcome. *)
Theorem do_transformations_single_macro
    (template : dict) (parameters : list pyvalue) (s : string) (w : W) :
  is_macro_name s = true ->
  (dict_get "Transform" template = Some (VStr s) ->
   do_transformations template parameters w
   = execute_macro template (VDict [("Name", VStr s)]) parameters w) /\
  (forall entries,
      dict_get "Transform" template = Some (VDict entries) ->
      dict_get "Name" entries = Some (VStr s) ->
      do_transformations template parameters w
      = execute_macro template (VDict entries) parameters w).
Proof.
  intros Hs. destruct (eq_str_macro_name s Hs) as [Hsrv Hext].
  split.
  - intros Hget. unfold do_transformations, dict_get_default.
    rewrite Hget. cbv zeta. cbn [format_transforms]. simpl.
    simpl in Hsrv, Hext. rewrite Hsrv, Hext. unfold bind.
    now destruct (execute_macro _ _ _ w) as [[e|r] w'].
  - intros entries Hget Hname. unfold do_transformations, dict_get_default.
    rewrite Hget. cbv zeta. cbn. rewrite Hname. cbn.
    simpl in Hsrv, Hext. rewrite Hsrv, Hext. unfold bind.
    now destruct (execute_macro _ _ _ w) as [[e|r] w'].
Qed.

(** X9. [transform_template] and [do_transformations] act on the world
    through the two transformers only: a property of the world that both
    transformers keep holds after the call, whether it returns or raises. *)
Theorem transform_template_keeps_invariant (Inv : W -> Prop) :
  (forall template w,
      Inv w -> Inv (snd (apply_serverless_transformation template w))) ->
  (forall template macro parameters w,
      Inv w -> Inv (snd (execute_macro template macro parameters w))) ->
  forall (template : dict) (parameters capabilities : list pyvalue) (w : W),
    Inv w ->
    Inv (snd (do_transformations template parameters w)) /\
    Inv (snd (transform_template template parameters capabilities w)).
Proof.
  intros Hsam Hmacro template parameters capabilities w Hw.
  assert (Hloop : forall transformations result w0,
             Inv w0 ->
             Inv (snd (transformations_loop transformations parameters result w0))).
  { induction transformations as [|t rest IH]; intros result w0 Hw0; simpl;
      [exact Hw0|].
    destruct (subscript_Name t) as [e|name]; [exact Hw0|].
    destruct (negb (isinstance_str name)); [exact Hw0|].
    destruct (eq_str name SERVERLESS_TRANSFORM).
    - rewrite bind_then_run. pose proof (Hsam result w0 Hw0) as Hs.
      destruct (apply_serverless_transformation result w0) as [[e|r] w'];
        simpl in *; [exact Hs | now apply IH].
    - destruct (eq_str name EXTENSIONS_TRANSFORM); [now apply IH|].
      rewrite bind_then_run. pose proof (Hmacro result t parameters w0 Hw0) as Hm.
      destruct (execute_macro result t parameters w0) as [[e|r] w'];
        simpl in *; [exact Hm | now apply IH]. }
  split.
  - apply Hloop, Hw.
  - unfold transform_template.
    destruct (negb (str_in "CAPABILITY_AUTO_EXPAND" capabilities));
      [exact Hw | apply Hloop, Hw].
Qed.

End DoTransformationsEdges.

Lemma do_transformations_ignores_other_types_witness :
  do_transformations (T := counting)
    [("Transform", VList [VNone; VInt 3; VList [VStr "MyMacro"]]);
     ("Resources", VDict [])]
    [] 0
  = (inr [("Transform", VList [VNone; VInt 3; VList [VStr "MyMacro"]]);
          ("Resources", VDict [])], 0).
Proof.
  apply (do_transformations_ignores_other_types (T := counting)
           _ [] (VList [VNone; VInt 3; VList [VStr "MyMacro"]]) 0);
    reflexivity.
Defined.

Lemma do_transformations_single_macro_witness :
  do_transformations (T := counting) [("Transform", VStr "MyMacro")] [] 0
  = execute_macro (Transformers := counting) [("Transform", VStr "MyMacro")]
      (VDict [("Name", VStr "MyMacro")]) [] 0 /\
  do_transformations (T := counting)
    [("Transform", VDict [("Name", VStr "MyMacro"); ("Parameters", VDict [])])]
    [] 0
  = execute_macro (Transformers := counting)
      [("Transform", VDict [("Name", VStr "MyMacro"); ("Parameters", VDict [])])]
      (VDict [("Name", VStr "MyMacro"); ("Parameters", VDict [])]) [] 0.
Proof.
  split.
  - apply (proj1 (do_transformations_single_macro (T := counting)
                    [("Transform", VStr "MyMacro")] [] "MyMacro" 0 eq_refl)).
    reflexivity.
  - apply (proj2 (do_transformations_single_macro (T := counting)
                    [("Transform",
                      VDict [("Name", VStr "MyMacro"); ("Parameters", VDict [])])]
                    [] "MyMacro" 0 eq_refl)
             [("Name", VStr "MyMacro"); ("Parameters", VDict [])]);
      reflexivity.
Defined.

Lemma transform_template_keeps_invariant_witness :
  5 <= snd (do_transformations (T := counting)
              [("Transform", VStr "AWS::Serverless-2016-10-31")] [] 5) /\
  5 <= snd (transform_template (T := counting)
              [("Transform", VStr "AWS::Serverless-2016-10-31")] []
              [VStr "CAPABILITY_AUTO_EXPAND"] 5).
Proof.
  apply (transform_template_keeps_invariant (T := counting) (fun w => 5 <= w)).
  - intros template w Hw. simpl. lia.
  - intros template macro parameters w Hw. simpl. lia.
  - lia.
Defined.

(** * Properties of [apply_serverless_transformation] *)

Import sam_transformation.

Example apply_serverless_returns :
  apply_serverless_transformation_body (RT := demo_runtime)
    [("Resources", VDict [])] {| AWS_DEFAULT_REGION := None; outside := 0 |}
  = (inr [("Transformed", VBool true); ("Resources", VDict [])],
     {| AWS_DEFAULT_REGION := None; outside := 1 |}).
Proof. reflexivity. Qed.

Example apply_serverless_fails :
  apply_serverless_transformation_body (RT := demo_runtime)
    [] {| AWS_DEFAULT_REGION := Some "eu-west-1"; outside := 0 |}
  = (inl (FailedTransformation "AWS::Serverless-2016-10-31" "empty template"),
     {| AWS_DEFAULT_REGION := Some "eu-west-1"; outside := 1 |}).
Proof. reflexivity. Qed.

Section ApplyServerless.

Context {R : Type} {RT : SamRuntime R}.

Lemma restore_region_spec (region_before : option string) (w : Process R) :
  restore_region region_before w
  = {| AWS_DEFAULT_REGION := region_before; outside := outside w |}.
Proof.
  destruct region_before; reflexivity.
Qed.

Lemma apply_serverless_with_loader (parsed_template : dict) (w w1 : Process R)
    (loader : Loader) :
  create_policy_loader (region_prepared w) = (inr loader, w1) ->
  apply_serverless_transformation_body parsed_template w
  = (match fst (transform_sam parsed_template loader w1) with
     | SamReturned transformed => inr transformed
     | SamException str_e => inl (FailedTransformation SERVERLESS_TRANSFORM str_e)
     | SamBaseException description => inl (OtherException description)
     end,
     {| AWS_DEFAULT_REGION := AWS_DEFAULT_REGION w;
        outside := outside (snd (transform_sam parsed_template loader w1)) |}).
Proof.
  intros Hloader. unfold apply_serverless_transformation_body.
  fold (region_prepared w). rewrite Hloader.
  destruct (transform_sam parsed_template loader w1) as [[t|s|d] w2];
    simpl; now rewrite restore_region_spec.
Qed.

(** X10. Once the policy loader exists, [AWS_DEFAULT_REGION] is after the
    call what it was before it (set to the same region, or unset), whether
    the SAM translator returned or raised and whatever it did to the
    variable; the rest of the process is as the translator left it. *)
Theorem apply_serverless_restores_region (parsed_template : dict)
    (w w1 : Process R) (loader : Loader) :
  create_policy_loader (region_prepared w) = (inr loader, w1) ->
  AWS_DEFAULT_REGION (snd (apply_serverless_transformation_body parsed_template w))
  = AWS_DEFAULT_REGION w /\
  outside (snd (apply_serverless_transformation_body parsed_template w))
  = outside (snd (transform_sam parsed_template loader w1)).
Proof.
  intros Hloader.
  rewrite (apply_serverless_with_loader parsed_template w w1 loader Hloader).
  split; reflexivity.
Qed.

(** X11. Once the policy loader exists, the call raises a
    [FailedTransformation] exactly when the SAM translator raised an
    [Exception]; it then names "AWS::Serverless-2016-10-31" and carries
    [str(e)] as its message. The call returns exactly when the translator
    returned, and returns what the translator returned. *)
Theorem apply_serverless_wraps_exceptions (parsed_template : dict)
    (w w1 : Process R) (loader : Loader) :
  create_policy_loader (region_prepared w) = (inr loader, w1) ->
  (forall transformation message,
      fst (apply_serverless_transformation_body parsed_template w)
      = inl (FailedTransformation transformation message)
      <-> transformation = SERVERLESS_TRANSFORM /\
          fst (transform_sam parsed_template loader w1) = SamException message) /\
  (forall transformed,
      fst (apply_serverless_transformation_body parsed_template w)
      = inr transformed
      <-> fst (transform_sam parsed_template loader w1) = SamReturned transformed).
Proof.
  intros Hloader.
  rewrite (apply_serverless_with_loader parsed_template w w1 loader Hloader).
  cbn [fst].
  destruct (fst (transform_sam parsed_template loader w1)) as [t|s|d]; split.
  - intros transformation message. split; [discriminate|].
    intros [_ H]; discriminate.
  - intros transformed. split; intros H; inversion H; reflexivity.
  - intros transformation message. split.
    + intros H. inversion H. split; reflexivity.
    + intros [Ht H]. inversion H. now subst.
  - intros transformed. split; discriminate.
  - intros transformation message. split; [discriminate|].
    intros [_ H]; discriminate.
  - intros transformed. split; discriminate.
Qed.

Lemma apply_serverless_without_loader (parsed_template : dict)
    (w w1 : Process R) (e : exn) :
  create_policy_loader (region_prepared w) = (inl e, w1) ->
  apply_serverless_transformation_body parsed_template w = (inl e, w1).
Proof.
  intros Hloader. unfold apply_serverless_transformation_body.
  fold (region_prepared w). now rewrite Hloader.
Qed.

(** X12. If creating the policy loader raises, the exception goes through
    and nothing is restored: the call ends in the process the loader left.
    So when boto3 knew no region and the loader left the variable alone,
    [AWS_DEFAULT_REGION] stays set to [get_region()] after the call, even
    if it was unset before. *)
Theorem apply_serverless_loader_failure_keeps_region (parsed_template : dict)
    (w w1 : Process R) (e : exn) :
  create_policy_loader (region_prepared w) = (inl e, w1) ->
  apply_serverless_transformation_body parsed_template w = (inl e, w1) /\
  (session_region_name w = None ->
   AWS_DEFAULT_REGION w1 = AWS_DEFAULT_REGION (region_prepared w) ->
   AWS_DEFAULT_REGION (snd (apply_serverless_transformation_body parsed_template w))
   = Some (get_region w)).
Proof.
  intros Hloader.
  pose proof (apply_serverless_without_loader parsed_template w w1 e Hloader)
    as Hbody.
  split; [exact Hbody|].
  intros Hnone Hkept. rewrite Hbody. cbn [snd]. rewrite Hkept.
  unfold region_prepared. now rewrite Hnone.
Qed.

(** X13. [apply_serverless_transformation] never raises
    [InsufficientCapabilitiesException] unless creating the policy loader
    does: the exceptions of the translator are all wrapped. *)
Theorem apply_serverless_never_insufficient :
  (forall w message,
      fst (create_policy_loader w)
      <> inl (InsufficientCapabilitiesException message)) ->
  forall (parsed_template : dict) (w : Process R) (message : string),
    fst (apply_serverless_transformation_body parsed_template w)
    <> inl (InsufficientCapabilitiesException message).
Proof.
  intros Hloader parsed_template w message.
  pose proof (Hloader (region_prepared w) message) as Hl.
  destruct (create_policy_loader (region_prepared w)) as [[e|loader] w1] eqn:Hc.
  - rewrite (apply_serverless_without_loader parsed_template w w1 e Hc). cbn [fst] in *. intros Heq. apply Hl.
    inversion Heq. reflexivity.
  - rewrite (apply_serverless_with_loader parsed_template w w1 loader Hc).
    cbn [fst].
    destruct (fst (transform_sam parsed_template loader w1)); discriminate.
Qed.

End ApplyServerless.

Lemma apply_serverless_restores_region_witness :
  AWS_DEFAULT_REGION
    (snd (apply_serverless_transformation_body (RT := demo_runtime)
            [("Resources", VDict [])]
            {| AWS_DEFAULT_REGION := Some "eu-west-1"; outside := 0 |}))
  = Some "eu-west-1" /\
  outside
    (snd (apply_serverless_transformation_body (RT := demo_runtime)
            [("Resources", VDict [])]
            {| AWS_DEFAULT_REGION := Some "eu-west-1"; outside := 0 |}))
  = 1.
Proof.
  apply (apply_serverless_restores_region (RT := demo_runtime)
           [("Resources", VDict [])]
           {| AWS_DEFAULT_REGION := Some "eu-west-1"; outside := 0 |}
           {| AWS_DEFAULT_REGION := Some "eu-west-1"; outside := 0 |} tt).
  reflexivity.
Defined.

Lemma apply_serverless_wraps_exceptions_witness :
  fst (apply_serverless_transformation_body (RT := demo_runtime) []
         {| AWS_DEFAULT_REGION := None; outside := 0 |})
  = inl (FailedTransformation "AWS::Serverless-2016-10-31" "empty template").
Proof.
  apply (proj1 (apply_serverless_wraps_exceptions (RT := demo_runtime) []
                  {| AWS_DEFAULT_REGION := None; outside := 0 |}
                  {| AWS_DEFAULT_REGION := Some "us-east-1"; outside := 0 |} tt
                  eq_refl)).
  split; reflexivity.
Defined.

Lemma apply_serverless_loader_failure_keeps_region_witness :
  apply_serverless_transformation_body (RT := demo_runtime_without_loader)
    [("Resources", VDict [])] {| AWS_DEFAULT_REGION := None; outside := 0 |}
  = (inl (OtherException "no loader"),
     {| AWS_DEFAULT_REGION := Some "us-east-1"; outside := 0 |}) /\
  AWS_DEFAULT_REGION
    (snd (apply_serverless_transformation_body (RT := demo_runtime_without_loader)
            [("Resources", VDict [])]
            {| AWS_DEFAULT_REGION := None; outside := 0 |}))
  = Some "us-east-1".
Proof.
  destruct (apply_serverless_loader_failure_keeps_region
              (RT := demo_runtime_without_loader)
              [("Resources", VDict [])]
              {| AWS_DEFAULT_REGION := None; outside := 0 |}
              {| AWS_DEFAULT_REGION := Some "us-east-1"; outside := 0 |}
              (OtherException "no loader") eq_refl) as [Hbody Hregion].
  split; [exact Hbody | apply Hregion; reflexivity].
Defined.

Lemma apply_serverless_never_insufficient_witness :
  fst (apply_serverless_transformation_body (RT := demo_runtime) []
         {| AWS_DEFAULT_REGION := None; outside := 0 |})
  <> inl (InsufficientCapabilitiesException
            "Requires capabilities : [CAPABILITY_AUTO_EXPAND]").
Proof.
  apply (apply_serverless_never_insufficient (RT := demo_runtime)).
  intros w message. simpl. discriminate.
Defined.

(** * Properties of the parts of [execute_macro] *)

Import macro_execution.

Example stack_parameters_last_wins :
  formatted_stack_parameters
    [VDict [("ParameterKey", VStr "Env"); ("ParameterValue", VStr "dev")];
     VDict [("ParameterKey", VStr "Size"); ("ParameterValue", VInt 2)];
     VDict [("ParameterKey", VStr "Env"); ("ParameterValue", VStr "prod")]]
  = inr [(VStr "Env", VStr "prod"); (VStr "Size", VInt 2)].
Proof. reflexivity. Qed.

Example stack_parameter_without_value :
  formatted_stack_parameters [VDict [("ParameterKey", VStr "Env")]]
  = inl (RaisedKeyError (VStr "ParameterValue")).
Proof. reflexivity. Qed.

Example transform_parameters_resolved :
  formatted_transform_parameters
    [("Name", VStr "MyMacro");
     ("Parameters",
      VDict [("Stage", VDict [("Ref", VStr "Env")]); ("Count", VInt 3)])]
    [(VStr "Env", VStr "prod"); (VStr "Size", VInt 2)]
  = inr [("Stage", VStr "prod"); ("Count", VInt 3)].
Proof. reflexivity. Qed.

Example macro_fragment_success :
  macro_fragment (L := demo_library) (VStr "MyMacro") "000000000000::MyMacro"
    (LambdaReturned (ResultSource (SourceStr "ok")))
  = inr [("Resources", VDict [])].
Proof. reflexivity. Qed.

Example macro_fragment_success_from_bytes :
  macro_fragment (L := demo_library) (VStr "MyMacro") "000000000000::MyMacro"
    (LambdaReturned (ResultSource (SourceBytes "ok")))
  = inr [("Resources", VDict [])].
Proof. reflexivity. Qed.

Example macro_fragment_response_is_not_json :
  macro_fragment (L := demo_library) (VStr "MyMacro") "000000000000::MyMacro"
    (LambdaReturned (ResultResponse 200))
  = inl (RaisedFailedTransformation (VStr "MyMacro") UNSUPPORTED_STRUCTURE).
Proof. reflexivity. Qed.

Example macro_fragment_failure_message :
  macro_fragment (L := demo_library) (VStr "MyMacro") "000000000000::MyMacro"
    (LambdaReturned (ResultSource (SourceStr "failed")))
  = inl (RaisedFailedTransformation (VStr "MyMacro")
           "Transform 000000000000::MyMacro failed with: boom. Rollback requested by user.").
Proof. reflexivity. Qed.

Section StackParameters.

Ltac key_cases :=
  cbn [key_eqb as_number] in *; try discriminate; try reflexivity;
  repeat match goal with
    | H : Z.eqb _ _ = true |- _ => apply Z.eqb_eq in H; subst
    | H : String.eqb _ _ = true |- _ => apply String.eqb_eq in H; subst
    end;
  try reflexivity.

Lemma key_eqb_sym (a b : pyvalue) : key_eqb a b = key_eqb b a.
Proof.
  destruct a as [| [|] | z | s | l | d], b as [| [|] | z' | s' | l' | d'];
    key_cases; solve [apply Z.eqb_sym | apply String.eqb_sym].
Qed.

Lemma key_eqb_congruent (k k' : pyvalue) :
  key_eqb k k' = true -> forall key, key_eqb key k' = key_eqb key k.
Proof.
  intros Heq key.
  destruct k as [| [|] | z | s | l | d], k' as [| [|] | z' | s' | l' | d'];
    key_cases;
    destruct key as [| [|] | y | t | l'' | d'']; key_cases.
Qed.

Lemma pydict_get_set (key k v : pyvalue) (d : pydict) :
  pydict_get key (pydict_set k v d)
  = if key_eqb key k then Some v else pydict_get key d.
Proof.
  induction d as [|[k' old] rest IH]; simpl.
  - reflexivity.
  - destruct (key_eqb k k') eqn:Hkk'; simpl.
    + rewrite (key_eqb_congruent k k' Hkk' key).
      now destruct (key_eqb key k).
    + rewrite IH. destruct (key_eqb key k') eqn:Hkey; [|reflexivity].
      destruct (key_eqb key k) eqn:Hkeyk; [|reflexivity].
      exfalso.
      rewrite (key_eqb_congruent key k' Hkey k), key_eqb_sym, Hkeyk in Hkk'.
      discriminate.
Qed.

Lemma comprehension_succeeds (stack_parameters : list pyvalue) :
  forall acc,
    (exists d, comprehension stack_parameters acc = inr d)
    <-> forallb is_stack_parameter stack_parameters = true.
Proof.
  induction stack_parameters as [|param rest IH]; intros acc; simpl.
  - split; [reflexivity | intros _; now exists acc].
  - destruct param as [| b | z | s | items | entries]; simpl;
      try (split; [intros [d Hd]; discriminate | discriminate]).
    destruct (dict_get "ParameterKey" entries) as [key|];
      [|split; [intros [d Hd]; discriminate | discriminate]].
    destruct (dict_get "ParameterValue" entries) as [v|];
      [|split; [intros [d Hd]; discriminate | discriminate]].
    destruct (hashable key); simpl;
      [apply IH | split; [intros [d Hd]; discriminate | discriminate]].
Qed.

(** X14. The stack parameters can be formatted exactly when each of them
    is a dict with a ["ParameterKey"] that can be a key and a
    ["ParameterValue"]; otherwise the comprehension raises (a [KeyError] or
    a [TypeError]). *)
Theorem formatted_stack_parameters_succeeds (stack_parameters : list pyvalue) :
  (exists d, formatted_stack_parameters stack_parameters = inr d)
  <-> forallb is_stack_parameter stack_parameters = true.
Proof.
  apply comprehension_succeeds.
Qed.

Lemma comprehension_lookup (key : pyvalue) (stack_parameters : list pyvalue) :
  forall acc d,
    comprehension stack_parameters acc = inr d ->
    pydict_get key d
    = fold_left
        (fun found param =>
           match param with
           | VDict entries =>
               match dict_get "ParameterKey" entries,
                     dict_get "ParameterValue" entries with
               | Some k, Some v => if key_eqb key k then Some v else found
               | _, _ => found
               end
           | _ => found
           end)
        stack_parameters (pydict_get key acc).
Proof.
  induction stack_parameters as [|param rest IH]; intros acc d; simpl.
  - intros H. now inversion H.
  - destruct param as [| b | z | s | items | entries]; simpl;
      try discriminate.
    destruct (dict_get "ParameterKey" entries) as [k|]; [|discriminate].
    destruct (dict_get "ParameterValue" entries) as [v|]; [|discriminate].
    destruct (hashable k); [|discriminate].
    intros H. rewrite (IH _ _ H), pydict_get_set. reflexivity.
Qed.

Lemma formatted_stack_parameters_last_value_aux
    (stack_parameters : list pyvalue) (d : pydict) (key : pyvalue) :
  formatted_stack_parameters stack_parameters = inr d ->
  pydict_get key d = last_value key stack_parameters.
Proof.
  intros H. apply (comprehension_lookup key stack_parameters [] d H).
Qed.

(** X15. When a key is given several times among the stack parameters,
    the last value wins: looking a key up in the formatted stack parameters
    gives the ["ParameterValue"] of the last parameter with that
    ["ParameterKey"], and nothing if there is none. *)
Theorem formatted_stack_parameters_last_value
    (stack_parameters : list pyvalue) (d : pydict) (key : pyvalue) :
  formatted_stack_parameters stack_parameters = inr d ->
  pydict_get key d = last_value key stack_parameters.
Proof.
  apply formatted_stack_parameters_last_value_aux.
Qed.

End StackParameters.

Lemma formatted_stack_parameters_last_value_witness :
  pydict_get (VStr "Env") [(VStr "Env", VStr "prod"); (VStr "Size", VInt 2)]
  = last_value (VStr "Env")
      [VDict [("ParameterKey", VStr "Env"); ("ParameterValue", VStr "dev")];
       VDict [("ParameterKey", VStr "Size"); ("ParameterValue", VInt 2)];
       VDict [("ParameterKey", VStr "Env"); ("ParameterValue", VStr "prod")]].
Proof.
  apply (formatted_stack_parameters_last_value
           [VDict [("ParameterKey", VStr "Env"); ("ParameterValue", VStr "dev")];
            VDict [("ParameterKey", VStr "Size"); ("ParameterValue", VInt 2)];
            VDict [("ParameterKey", VStr "Env"); ("ParameterValue", VStr "prod")]]
           [(VStr "Env", VStr "prod"); (VStr "Size", VInt 2)] (VStr "Env")).
  reflexivity.
Defined.

Section TransformParameters.

Variable stack : pydict.

Lemma resolve_parameter_without_ref (v : pyvalue) :
  has_ref v = false -> resolve_parameter stack v = inr v.
Proof.
  destruct v as [| b | z | s | items | entries]; try reflexivity.
  simpl. now destruct (dict_get "Ref" entries).
Qed.

Lemma resolve_items_without_ref (items : dict) :
  forallb (fun kv => negb (has_ref (snd kv))) items = true ->
  resolve_items stack items = inr items.
Proof.
  induction items as [|[k v] rest IH]; simpl; [reflexivity|].
  intros H. apply andb_prop in H as [Hv Hrest].
  apply negb_true_iff in Hv.
  now rewrite (resolve_parameter_without_ref v Hv), (IH Hrest).
Qed.

(** X16. Transform parameters that hold no ["Ref"] reach the macro as
    they were written, whatever the stack parameters are; a transform
    without ["Parameters"] has none. *)
Theorem formatted_transform_parameters_without_ref (macro items : dict) :
  (dict_get "Parameters" macro = None ->
   formatted_transform_parameters macro stack = inr []) /\
  (dict_get "Parameters" macro = Some (VDict items) ->
   forallb (fun kv => negb (has_ref (snd kv))) items = true ->
   formatted_transform_parameters macro stack = inr items).
Proof.
  unfold formatted_transform_parameters, dict_get_default. split.
  - intros Hget. now rewrite Hget.
  - intros Hget Hnoref. rewrite Hget. now apply resolve_items_without_ref.
Qed.

Lemma resolve_items_keys (items items' : dict) :
  resolve_items stack items = inr items' ->
  map fst items' = map fst items /\
  (forall k v,
      dict_get k items = Some v ->
      exists v', dict_get k items' = Some v' /\
                 resolve_parameter stack v = inr v').
Proof.
  revert items'.
  induction items as [|[k0 v0] rest IH]; intros items'; simpl.
  - intros H. inversion H. split; [reflexivity | discriminate].
  - destruct (resolve_parameter stack v0) as [e|v0'] eqn:Hv0; [discriminate|].
    destruct (resolve_items stack rest) as [e|rest'] eqn:Hrest; [discriminate|].
    intros H. inversion H. subst items'. clear H.
    destruct (IH rest' eq_refl) as [Hkeys Hvalues].
    split; [simpl; now rewrite Hkeys|].
    intros k v. simpl. destruct (String.eqb k k0).
    + intros Hv. inversion Hv. subst v0. now exists v0'.
    + apply Hvalues.
Qed.

(** X17. When the transform parameters can be resolved, the macro gets
    the same keys in the same order; under each key it gets the value of the
    stack parameter named by ["Ref"] if the parameter was a dict with a
    ["Ref"], and the parameter itself otherwise. *)
Theorem formatted_transform_parameters_resolved
    (macro items items' : dict) :
  dict_get "Parameters" macro = Some (VDict items) ->
  formatted_transform_parameters macro stack = inr items' ->
  map fst items' = map fst items /\
  (forall k v,
      dict_get k items = Some v ->
      exists v',
        dict_get k items' = Some v' /\
        ((has_ref v = false /\ v' = v) \/
         (exists entries ref,
             v = VDict entries /\ dict_get "Ref" entries = Some ref /\
             pydict_get ref stack = Some v'))).
Proof.
  unfold formatted_transform_parameters, dict_get_default.
  intros Hget. rewrite Hget. intros Hres.
  destruct (resolve_items_keys items items' Hres) as [Hkeys Hvalues].
  split; [exact Hkeys|].
  intros k v Hk. destruct (Hvalues k v Hk) as [v' [Hk' Hv']].
  exists v'. split; [exact Hk'|].
  destruct v as [| b | z | s | l | entries];
    try (left; simpl in Hv'; inversion Hv'; split; reflexivity).
  simpl in Hv'. simpl.
  destruct (dict_get "Ref" entries) as [ref|] eqn:Href.
  - right. exists entries, ref.
    split; [reflexivity|]. split; [exact Href|].
    destruct (hashable ref); [|discriminate].
    destruct (pydict_get ref stack); inversion Hv'. reflexivity.
  - left. inversion Hv'. split; reflexivity.
Qed.

(** X18. A ["Ref"] to a name that is not among the stack parameters makes
    the resolution of the transform parameters raise a [KeyError] on that
    name, not a [FailedTransformation]: this is what the loop raises when
    the parameters before the offending one hold no ["Ref"]. *)
Theorem formatted_transform_parameters_unknown_ref
    (macro before after entries : dict) (k : string) (ref : pyvalue) :
  dict_get "Parameters" macro
  = Some (VDict (before ++ (k, VDict entries) :: after)) ->
  forallb (fun kv => negb (has_ref (snd kv))) before = true ->
  dict_get "Ref" entries = Some ref ->
  hashable ref = true ->
  pydict_get ref stack = None ->
  formatted_transform_parameters macro stack = inl (RaisedKeyError ref).
Proof.
  unfold formatted_transform_parameters, dict_get_default.
  intros Hget Hbefore Href Hhash Hmissing. rewrite Hget. clear Hget.
  induction before as [|[k0 v0] rest IH]; simpl.
  - now rewrite Href, Hhash, Hmissing.
  - simpl in Hbefore. apply andb_prop in Hbefore as [Hv0 Hrest].
    apply negb_true_iff in Hv0.
    rewrite (resolve_parameter_without_ref v0 Hv0), (IH Hrest). reflexivity.
Qed.

End TransformParameters.

Lemma formatted_transform_parameters_without_ref_witness :
  formatted_transform_parameters [("Name", VStr "MyMacro")]
    [(VStr "Env", VStr "prod")]
  = inr [] /\
  formatted_transform_parameters
    [("Name", VStr "MyMacro");
     ("Parameters", VDict [("Count", VInt 3); ("Tags", VDict [("a", VStr "b")])])]
    [(VStr "Env", VStr "prod")]
  = inr [("Count", VInt 3); ("Tags", VDict [("a", VStr "b")])].
Proof.
  split.
  - apply (proj1 (formatted_transform_parameters_without_ref
                    [(VStr "Env", VStr "prod")] [("Name", VStr "MyMacro")] [])).
    reflexivity.
  - apply (proj2 (formatted_transform_parameters_without_ref
                    [(VStr "Env", VStr "prod")]
                    [("Name", VStr "MyMacro");
                     ("Parameters",
                      VDict [("Count", VInt 3); ("Tags", VDict [("a", VStr "b")])])]
                    [("Count", VInt 3); ("Tags", VDict [("a", VStr "b")])]));
      reflexivity.
Defined.

Lemma formatted_transform_parameters_resolved_witness :
  map fst [("Stage", VStr "prod"); ("Count", VInt 3)]
  = map fst [("Stage", VDict [("Ref", VStr "Env")]); ("Count", VInt 3)] /\
  (forall k v,
      dict_get k [("Stage", VDict [("Ref", VStr "Env")]); ("Count", VInt 3)]
      = Some v ->
      exists v',
        dict_get k [("Stage", VStr "prod"); ("Count", VInt 3)] = Some v' /\
        ((has_ref v = false /\ v' = v) \/
         (exists entries ref,
             v = VDict entries /\ dict_get "Ref" entries = Some ref /\
             pydict_get ref [(VStr "Env", VStr "prod")] = Some v'))).
Proof.
  apply (formatted_transform_parameters_resolved
           [(VStr "Env", VStr "prod")]
           [("Name", VStr "MyMacro");
            ("Parameters",
             VDict [("Stage", VDict [("Ref", VStr "Env")]); ("Count", VInt 3)])]);
    reflexivity.
Defined.

Lemma formatted_transform_parameters_unknown_ref_witness :
  formatted_transform_parameters
    [("Name", VStr "MyMacro");
     ("Parameters",
      VDict ([("Count", VInt 3)]
             ++ ("Stage", VDict [("Ref", VStr "Missing")]) :: []))]
    [(VStr "Env", VStr "prod")]
  = inl (RaisedKeyError (VStr "Missing")).
Proof.
  apply (formatted_transform_parameters_unknown_ref
           [(VStr "Env", VStr "prod")]
           [("Name", VStr "MyMacro");
            ("Parameters",
             VDict ([("Count", VInt 3)]
                    ++ ("Stage", VDict [("Ref", VStr "Missing")]) :: []))]
           [("Count", VInt 3)] [] [("Ref", VStr "Missing")] "Stage"
           (VStr "Missing"));
    reflexivity.
Defined.

Section MacroFragment.

Context {L : PythonLibrary}.
Variables (name : pyvalue) (transformation_id : string).

Lemma fragment_of_result_returns (result : pyvalue) (fragment : dict) :
  fragment_of_result name transformation_id result = inr fragment <->
  exists entries,
    result = VDict entries /\
    dict_get "status" entries = Some (VStr "success") /\
    dict_get "fragment" entries = Some (VDict fragment).
Proof.
  split.
  - destruct result as [| b | z | s | l | entries]; try discriminate.
    unfold fragment_of_result, dict_get_default.
    destruct (dict_get "status" entries) as [status|] eqn:Hstatus;
      [|discriminate].
    destruct status as [| b | z | s | l | d]; try discriminate.
    cbn [eq_str]. destruct (String.eqb s "success") eqn:Hs; [|discriminate].
    apply String.eqb_eq in Hs. subst s. cbn [negb].
    destruct (dict_get "fragment" entries) as [f|] eqn:Hfragment;
      [|discriminate].
    destruct f as [| b | z | s | l | d]; try discriminate.
    intros H. inversion H. subst. exists entries. repeat split; assumption.
  - intros [entries [Hres [Hstatus Hfragment]]]. subst result.
    unfold fragment_of_result, dict_get_default.
    now rewrite Hstatus, Hfragment.
Qed.

(** X19. The macro yields a fragment in one case only: [run_lambda]
    returned a [str], [bytes] or [bytearray] that [json.loads] parses to an
    object whose ["status"] is the string "success" and whose ["fragment"]
    is an object; the fragment returned is that object. Any other status
    fails, even with a well-formed fragment. *)
Theorem macro_fragment_returns (outcome : lambda_outcome) (fragment : dict) :
  macro_fragment name transformation_id outcome = inr fragment <->
  exists source entries,
    outcome = LambdaReturned (ResultSource source) /\
    json_loads source = Loaded (VDict entries) /\
    dict_get "status" entries = Some (VStr "success") /\
    dict_get "fragment" entries = Some (VDict fragment).
Proof.
  unfold macro_fragment. split.
  - destruct outcome as [[status_code | source |] | | description]; simpl;
      try discriminate.
    + destruct (Z.eqb status_code 500); discriminate.
    + destruct (json_loads source) as [result | |] eqn:Hloads;
        try discriminate.
      intros H. apply fragment_of_result_returns in H.
      destruct H as [entries [Hres [Hstatus Hfragment]]]. subst result.
      now exists source, entries.
  - intros [source [entries [Hout [Hloads [Hstatus Hfragment]]]]].
    subst outcome. simpl. rewrite Hloads. apply fragment_of_result_returns.
    now exists entries.
Qed.

(** X20. Every [FailedTransformation] raised while handling the answer of
    the Lambda function names the macro. What is raised is something else
    only when [run_lambda] raised something other than a [TypeError], when
    [json.loads] raised on the [str], [bytes] or [bytearray] returned (a
    [JSONDecodeError], or a [UnicodeDecodeError]), or when the JSON is not
    an object. *)
Theorem macro_fragment_failures (outcome : lambda_outcome) (e : raised) :
  macro_fragment name transformation_id outcome = inl e ->
  (exists message, e = RaisedFailedTransformation name message) \/
  (exists description,
      outcome = LambdaRaised description /\ e = RaisedByLambda description) \/
  (exists source,
      outcome = LambdaReturned (ResultSource source) /\
      ((json_loads source = LoadsJSONDecodeError /\ e = RaisedJSONDecodeError) \/
       (json_loads source = LoadsUnicodeDecodeError /\
        e = RaisedUnicodeDecodeError) \/
       (exists result,
           json_loads source = Loaded result /\ isinstance_dict result = false /\
           e = RaisedAttributeError))).
Proof.
  unfold macro_fragment.
  destruct outcome as [[status_code | source |] | | description]; simpl.
  - destruct (Z.eqb status_code 500); intros H; inversion H; left; eauto.
  - destruct (json_loads source) as [result | |] eqn:Hloads.
    + destruct result as [| b | z | s | l | entries];
        try (intros H; inversion H; right; right; exists source;
             split; [reflexivity|]; right; right; eexists;
             split; [exact Hloads | split; reflexivity]).
      unfold fragment_of_result.
      destruct (negb (eq_str (dict_get_default "status" VNone entries) "success")).
      * intros H; inversion H; left; eauto.
      * destruct (dict_get_default "fragment" VNone entries);
          intros H; inversion H; left; eauto.
    + intros H; inversion H. right; right. exists source.
      split; [reflexivity|]. now left.
    + intros H; inversion H. right; right. exists source.
      split; [reflexivity|]. right. now left.
  - intros H; inversion H; left; eauto.
  - intros H; inversion H; left; eauto.
  - intros H; inversion H. right; left. now exists description.
Qed.

End MacroFragment.

Lemma macro_fragment_failures_witness :
  let e :=
    RaisedFailedTransformation (VStr "MyMacro")
      "Transform 000000000000::MyMacro failed with: boom. Rollback requested by user." in
  let outcome := LambdaReturned (ResultSource (SourceBytes "failed")) in
  (exists message, e = RaisedFailedTransformation (VStr "MyMacro") message) \/
  (exists description,
      outcome = LambdaRaised description /\ e = RaisedByLambda description) \/
  (exists source,
      outcome = LambdaReturned (ResultSource source) /\
      ((json_loads (PythonLibrary := demo_library) source = LoadsJSONDecodeError /\
        e = RaisedJSONDecodeError) \/
       (json_loads (PythonLibrary := demo_library) source
        = LoadsUnicodeDecodeError /\
        e = RaisedUnicodeDecodeError) \/
       (exists result,
           json_loads (PythonLibrary := demo_library) source = Loaded result /\
           isinstance_dict result = false /\
           e = RaisedAttributeError))).
Proof.
  cbv zeta.
  apply (macro_fragment_failures (L := demo_library) (VStr "MyMacro")
           "000000000000::MyMacro"
           (LambdaReturned (ResultSource (SourceBytes "failed")))).
  reflexivity.
Defined.

(** X21. From the stack parameters to the macro: a transform parameter
    written as a dict with a ["Ref"] reaches the macro as the
    ["ParameterValue"] given last for that name among the stack
    parameters. *)
Theorem transform_parameter_takes_last_stack_value
    (stack_parameters : list pyvalue) (stack : pydict)
    (macro items items' entries : dict) (k : string) (ref : pyvalue) :
  formatted_stack_parameters stack_parameters = inr stack ->
  dict_get "Parameters" macro = Some (VDict items) ->
  formatted_transform_parameters macro stack = inr items' ->
  dict_get k items = Some (VDict entries) ->
  dict_get "Ref" entries = Some ref ->
  exists v,
    dict_get k items' = Some v /\ last_value ref stack_parameters = Some v.
Proof.
  intros Hstack Hparams Hres Hk Href.
  unfold formatted_transform_parameters, dict_get_default in Hres.
  rewrite Hparams in Hres.
  destruct (resolve_items_keys stack items items' Hres) as [_ Hvalues].
  destruct (Hvalues k (VDict entries) Hk) as [v [Hk' Hv]].
  exists v. split; [exact Hk'|].
  rewrite <- (formatted_stack_parameters_last_value_aux stack_parameters stack ref Hstack).
  simpl in Hv. rewrite Href in Hv.
  destruct (hashable ref); [|discriminate].
  destruct (pydict_get ref stack); inversion Hv. reflexivity.
Qed.

Lemma transform_parameter_takes_last_stack_value_witness :
  exists v,
    dict_get "Stage" [("Stage", VStr "prod"); ("Count", VInt 3)] = Some v /\
    last_value (VStr "Env")
      [VDict [("ParameterKey", VStr "Env"); ("ParameterValue", VStr "dev")];
       VDict [("ParameterKey", VStr "Env"); ("ParameterValue", VStr "prod")]]
    = Some v.
Proof.
  apply (transform_parameter_takes_last_stack_value
           [VDict [("ParameterKey", VStr "Env"); ("ParameterValue", VStr "dev")];
            VDict [("ParameterKey", VStr "Env"); ("ParameterValue", VStr "prod")]]
           [(VStr "Env", VStr "prod")]
           [("Name", VStr "MyMacro");
            ("Parameters",
             VDict [("Stage", VDict [("Ref", VStr "Env")]); ("Count", VInt 3)])]
           [("Stage", VDict [("Ref", VStr "Env")]); ("Count", VInt 3)]
           [("Stage", VStr "prod"); ("Count", VInt 3)]
           [("Ref", VStr "Env")] "Stage" (VStr "Env"));
    reflexivity.
Defined.
